(** * Boss notification bot: participation tracking and respawn-time engine

    A shallow embedding of [discord-bot-server.js]: the respawn-time policy
    ([calculateRespawnTime], [formatRespawnTime]), the two in-memory maps
    ([participationData], [messageBossData]), the reaction handlers, the
    registration done by the [/api/send-boss] route and the periodic
    update with its clean-up of old messages.

    Modelling conventions.
    - A JavaScript Number is an integer [Z], or NaN; [num := option Z] with
      [None] for NaN.  Arithmetic is exact: the doubles of the program are
      exact on the integers (milliseconds, whole hours, counts) it computes
      with.  The one quotient that is not an integer, the participation
      rate, is computed in binary64 as the program computes it
      ([Binary64]).
    - The clock ([new Date()] without argument) is an explicit argument [now],
      the milliseconds since the epoch.
    - [Date.parse] and the string case of [ToNumber] belong to the host; they
      are parameters of the development.  [Host.iso_parse] and
      [Host.decimal_literal] are two instances used to run the model.
    - Transport calls (fetching a channel or a message, sending, editing) are
      represented by their outcome, supplied as an argument.  The reads and
      writes a reaction handler or the clean-up loop makes on the maps are
      synchronous; the first loop of the periodic update, which awaits the
      transport between entries, is modelled as running without another
      handler in between. *)

From Stdlib Require Import ZArith String Ascii List Lia Uint63.
From Corelib Require Import PrimFloat SpecFloat FloatOps.
From stdpp Require Import gmap strings pretty.

Local Open Scope string_scope.
Local Open Scope Z_scope.

#[local] Set Warnings "-clear-no-such-hyp".

(* ================================================================== *)
(** * JavaScript values, numbers and dates *)
(* ================================================================== *)

(** The scalar values a JSON body can hold in a field (or [undefined] when
    the field is missing).  A Number is an integer here; a fraction, such as
    1.5 hours, is outside the model. *)
Inductive Value : Type :=
| Undefined
| Null
| Bool (b : bool)
| Number (n : Z)
| Str (s : string).

(** A Number that may be NaN. *)
Definition num : Type := option Z.

Definition NaN : num := None.

Definition isNaN (x : num) : bool :=
  match x with
  | None => true
  | Some _ => false
  end.

(** [if (v)]: [undefined], [null], [false], [0] and [""] are falsy. *)
Definition truthy (v : Value) : bool :=
  match v with
  | Undefined | Null => false
  | Bool b => b
  | Number n => negb (n =? 0)
  | Str s => negb (String.eqb s "")
  end.

(** [a || b] *)
Definition js_or (a b : Value) : Value := if truthy a then a else b.

Definition num_add (x y : num) : num :=
  match x, y with
  | Some a, Some b => Some (a + b)
  | _, _ => NaN
  end.

Definition num_mul (x y : num) : num :=
  match x, y with
  | Some a, Some b => Some (a * b)
  | _, _ => NaN
  end.

(** [x > y] and [x < y]: false as soon as one side is NaN. *)
Definition num_gt (x y : num) : bool :=
  match x, y with
  | Some a, Some b => b <? a
  | _, _ => false
  end.

Definition num_lt (x y : num) : bool := num_gt y x.

(** A Date object: its time value, NaN for an Invalid Date. *)
Record Date : Type := mkDate { getTime : num }.

Definition maxTime : Z := 8640000000000000.

(** The range check every Date constructor applies to its time value. *)
Definition TimeClip (x : num) : num :=
  match x with
  | Some t => if Z.abs t <=? maxTime then Some t else NaN
  | None => NaN
  end.

(** [new Date(x)] for a Number [x]. *)
Definition Date_of_num (x : num) : Date := mkDate (TimeClip x).

(** How a call ends: with a value, or with the RangeError that
    [toISOString] throws on an Invalid Date. *)
Inductive Result (A : Type) : Type :=
| Returned (a : A)
| RangeError.

Arguments Returned {A} a.
Arguments RangeError {A}.

(* ================================================================== *)
(** * Two host instances, to run the model *)
(* ================================================================== *)

Module Host.

Definition digit (c : ascii) : option Z :=
  let n := Z.of_nat (nat_of_ascii c) in
  if (48 <=? n) && (n <=? 57) then Some (n - 48) else None.

Fixpoint digits_from (acc : Z) (s : string) : option Z :=
  match s with
  | EmptyString => Some acc
  | String c rest =>
      match digit c with
      | Some d => digits_from (10 * acc + d) rest
      | None => None
      end
  end.

(** A non-empty run of decimal digits. *)
Definition digits (s : string) : option Z :=
  match s with
  | EmptyString => None
  | _ => digits_from 0 s
  end.

(** An instance of StringToNumber: the empty string is 0, an unsigned
    decimal integer literal is its value, any other string is NaN.  (A host
    also reads signs, fractions, exponents and surrounding white space.) *)
Definition decimal_literal (s : string) : num :=
  match s with
  | EmptyString => Some 0
  | _ => digits s
  end.

Definition is_leap (y : Z) : bool :=
  ((y mod 4 =? 0) && negb (y mod 100 =? 0)) || (y mod 400 =? 0).

Definition days_in_month (y m : Z) : Z :=
  if m =? 2 then (if is_leap y then 29 else 28)
  else if (m =? 4) || (m =? 6) || (m =? 9) || (m =? 11) then 30
  else 31.

(** Days from 1970-01-01 to the civil date y-m-d (proleptic Gregorian). *)
Definition days_from_civil (y m d : Z) : Z :=
  let y' := if m <=? 2 then y - 1 else y in
  let era := y' / 400 in
  let yoe := y' - era * 400 in
  let mp := (m + 9) mod 12 in
  let doy := (153 * mp + 2) / 5 + d - 1 in
  let doe := yoe * 365 + yoe / 4 - yoe / 100 + doy in
  era * 146097 + doe - 719468.

Definition char_at (i : nat) (c : string) (s : string) : bool :=
  String.eqb (substring i 1 s) c.

Definition field (i n : nat) (s : string) : option Z := digits (substring i n s).

(** An instance of [Date.parse]: the UTC date-time strings of the ECMAScript
    format, [YYYY-MM-DDTHH:mm:ssZ] and [YYYY-MM-DDTHH:mm:ss.sssZ]; any other
    string is unparseable (NaN).  (A host also reads date-only and local-time
    forms and formats of its own.) *)
Definition iso_parse (s : string) : num :=
  let len := String.length s in
  let ms :=
    if Nat.eqb len 20 then (if char_at 19 "Z" s then Some 0 else None)
    else if Nat.eqb len 24 then
      (if char_at 19 "." s && char_at 23 "Z" s then field 20 3 s else None)
    else None in
  if char_at 4 "-" s && char_at 7 "-" s && char_at 10 "T" s
     && char_at 13 ":" s && char_at 16 ":" s
  then
    match field 0 4 s, field 5 2 s, field 8 2 s,
          field 11 2 s, field 14 2 s, field 17 2 s, ms with
    | Some y, Some mo, Some d, Some h, Some mi, Some sec, Some msec =>
        if (1 <=? mo) && (mo <=? 12) && (1 <=? d) && (d <=? days_in_month y mo)
           && (h <=? 23) && (mi <=? 59) && (sec <=? 59)
        then Some ((((days_from_civil y mo d * 24 + h) * 60 + mi) * 60 + sec) * 1000 + msec)
        else None
    | _, _, _, _, _, _, _ => None
    end
  else None.

End Host.

(* ================================================================== *)
(** * Doubles *)
(* ================================================================== *)

(** IEEE 754 binary64, the arithmetic of a JavaScript Number, for the one
    computation of the program that leaves the integers: the quotient and
    the product of the participation rate are rounded to a double before
    [Math.round] sees them. *)
Module Binary64.

(** The double of a count (below 2^63; a count up to 2^53 is exact). *)
Definition of_count (z : Z) : float := PrimFloat.of_uint63 (Uint63.of_Z z).

(** [Math.round] of a finite double [m * 2^e]: the floor of its exact value
    plus one half, so that a tie goes up.  With [e < 0] this is the floor of
    [(2 * m + 2^(-e)) / 2^(1 - e)], a shift to the right.  (Infinities and
    NaN do not arise from a quotient of counts with a positive total.) *)
Definition Math_round (x : float) : Z :=
  match Prim2SF x with
  | S754_finite s m e =>
      let v := if s then Z.neg m else Z.pos m in
      if 0 <=? e then Z.shiftl v e
      else Z.shiftr (2 * v + Z.shiftl 1 (- e)) (1 - e)
  | _ => 0
  end.

(** [r] is an integer nearest to the percentage of [p] in [p + n]: it differs
    from [100 * p / (p + n)] by one half at most. *)
Definition nearest_percent (p n r : Z) : bool :=
  2 * Z.abs (100 * p - r * (p + n)) <=? p + n.


End Binary64.

(* ================================================================== *)
(** * The respawn-time policy *)
(* ================================================================== *)

(** The fields of a boss payload the program computes with.  The display
    metadata ([points], [notes], image references) is carried along by the
    program and never inspected by the functions below; it is left out. *)
Record BossData : Type := mkBoss {
  monster : Value;
  name : Value;
  respawn_time : Value;
  time_of_death : Value;
  respawn_hours : Value
}.

Section Bot.

(** The host's [Date.parse] (NaN for an unparseable string) and the host's
    conversion of a string to a Number. *)
Variable Date_parse : string -> num.
Variable StringToNumber : string -> num.

#[local] Set Default Proof Using "Type".

Definition ToNumber (v : Value) : num :=
  match v with
  | Undefined => NaN
  | Null => Some 0
  | Bool b => Some (if b then 1 else 0)
  | Number n => Some n
  | Str s => StringToNumber s
  end.

(** [new Date(v)]: a string is parsed, any other value is converted to a
    Number; the time value is range-checked. *)
Definition new_Date (v : Value) : Date :=
  match v with
  | Str s => mkDate (TimeClip (Date_parse s))
  | _ => Date_of_num (ToNumber v)
  end.

(** [calculateRespawnTime(boss)], the clock reading as [now].  [None] is the
    [null] result; [Some d] is a Date object, which may be an Invalid Date.
    The second branch logs [respawnTime.toISOString()] before it returns,
    which throws when the sum is not a valid time. *)
Definition calculateRespawnTime (boss : BossData) (now : Z) : Result (option Date) :=
  let respawnDate := new_Date (respawn_time boss) in
  if truthy (respawn_time boss)
     && (negb (isNaN (getTime respawnDate)) && num_gt (getTime respawnDate) (Some now))
  then Returned (Some respawnDate)
  else
    let deathTime := new_Date (time_of_death boss) in
    if (truthy (time_of_death boss) && truthy (respawn_hours boss))
       && negb (isNaN (getTime deathTime))
    then
      let respawnTime :=
        Date_of_num
          (num_add (getTime deathTime)
             (num_mul (num_mul (num_mul (ToNumber (respawn_hours boss))
                                        (Some 60)) (Some 60)) (Some 1000))) in
      if isNaN (getTime respawnTime) then RangeError
      else Returned (Some respawnTime)
    else if truthy (respawn_time boss)
    then Returned (Some (new_Date (respawn_time boss)))
    else Returned None.

(** The countdown text for a positive difference in milliseconds. *)
Definition countdown (diffInMs : Z) : string :=
  let diffInSeconds := diffInMs / 1000 in
  let diffInMinutes := diffInSeconds / 60 in
  let diffInHours := diffInMinutes / 60 in
  let diffInDays := diffInHours / 24 in
  if 0 <? diffInDays then
    pretty diffInDays +:+ "d " +:+ pretty (diffInHours mod 24) +:+ "h"
  else if 0 <? diffInHours then
    pretty diffInHours +:+ "h " +:+ pretty (diffInMinutes mod 60) +:+ "m"
  else if 0 <? diffInMinutes then
    pretty diffInMinutes +:+ "m"
  else
    pretty diffInSeconds +:+ "s".

(** [formatRespawnTime(boss)].  The function reads the clock twice: inside
    [calculateRespawnTime] ([calcNow]) and for the difference ([now]).  An
    exception of [calculateRespawnTime] goes through. *)
Definition formatRespawnTime_at (boss : BossData) (calcNow now : Z) : Result string :=
  match calculateRespawnTime boss calcNow with
  | RangeError => RangeError
  | Returned None => Returned "Unknown"
  | Returned (Some respawnDate) =>
      match getTime respawnDate with
      | None => Returned "Unknown"
      | Some t =>
          let diffInMs := t - now in
          if diffInMs <=? 0 then Returned "Available Now!"
          else Returned (countdown diffInMs)
      end
  end.

(** [formatRespawnTime] at one evaluation instant. *)
Definition formatRespawnTime (boss : BossData) (now : Z) : Result string :=
  formatRespawnTime_at boss now now.

(* ================================================================== *)
(** * The two maps and the reaction handlers *)
(* ================================================================== *)

(** The value of a [participationData] entry: two sets of user ids. *)
Record Participation : Type := mkParticipation {
  participating : gset string;
  notParticipating : gset string
}.

(** [{ participating: new Set(), notParticipating: new Set() }] *)
Definition emptyParticipation : Participation := mkParticipation ∅ ∅.

(** The module-level state: both maps are keyed by message id. *)
Record Store : Type := mkStore {
  participationData : gmap string Participation;
  messageBossData : gmap string BossData
}.

Definition emptyStore : Store := mkStore ∅ ∅.

(** The state after an update of the record of a message. *)
Definition with_record (messageId : string) (data : Participation) (st : Store) : Store :=
  mkStore (<[messageId := data]> (participationData st)) (messageBossData st).

Definition emoji_yes : string := "✅".
Definition emoji_no : string := "❌".

(** How a reaction handler leaves: by the early return on an emoji that is
    neither of the two, by the early return on a message without
    participation data (removal only), or through
    [updateParticipationEmbed(reaction.message, data)]. *)
Inductive Outcome : Type :=
| Ignored
| NoData
| Redraw (data : Participation).

(** [handleReactionAdd(reaction, user)] with [messageId = reaction.message.id],
    [emoji = reaction.emoji.name], [userId = user.id], once a partial
    reaction has been fetched.  The entry of the map is the object the
    handler mutates, so the mutation is an update of the entry.  Nothing in
    the handler throws after the fetch; the embed update at its end catches
    its own exceptions. *)
Definition handleReactionAdd (messageId emoji userId : string) (st : Store)
  : Store * Outcome :=
  if negb (String.eqb emoji emoji_yes) && negb (String.eqb emoji emoji_no)
  then (st, Ignored)
  else
    let data :=
      match participationData st !! messageId with
      | Some d => d
      | None => emptyParticipation
      end in
    let data' :=
      if String.eqb emoji emoji_yes then
        mkParticipation ({[userId]} ∪ participating data)
                        (notParticipating data ∖ {[userId]})
      else
        mkParticipation (participating data ∖ {[userId]})
                        ({[userId]} ∪ notParticipating data) in
    (with_record messageId data' st, Redraw data').

(** [handleReactionRemove(reaction, user)]. *)
Definition handleReactionRemove (messageId emoji userId : string) (st : Store)
  : Store * Outcome :=
  if negb (String.eqb emoji emoji_yes) && negb (String.eqb emoji emoji_no)
  then (st, Ignored)
  else
    match participationData st !! messageId with
    | None => (st, NoData)
    | Some data =>
        let data' :=
          if String.eqb emoji emoji_yes then
            mkParticipation (participating data ∖ {[userId]}) (notParticipating data)
          else
            mkParticipation (participating data) (notParticipating data ∖ {[userId]}) in
        (with_record messageId data' st, Redraw data')
    end.

(** A reaction event as the client delivers it; [bot] is [user.bot]. *)
Inductive Event : Type :=
| ReactionAdd (messageId emoji userId : string) (bot : bool)
| ReactionRemove (messageId emoji userId : string) (bot : bool).

(** The two listeners: a bot's reaction is dropped before the handler. *)
Definition on_event (e : Event) (st : Store) : Store :=
  match e with
  | ReactionAdd m em u bot => if bot then st else fst (handleReactionAdd m em u st)
  | ReactionRemove m em u bot => if bot then st else fst (handleReactionRemove m em u st)
  end.

(** The states a sequence of events goes through, the first one included. *)
Fixpoint trace (evs : list Event) (st : Store) : list Store :=
  match evs with
  | [] => [st]
  | e :: rest => st :: trace rest (on_event e st)
  end.

Definition run (evs : list Event) (st : Store) : Store := foldl (fun s e => on_event e s) st evs.

(* ================================================================== *)
(** * The quick statistics of an embed *)
(* ================================================================== *)

Record Stats : Type := mkStats {
  participatingCount : Z;
  notParticipatingCount : Z;
  totalResponses : Z;
  participationRate : Z
}.

(** The four constants [updateParticipationEmbed] and [createBossEmbed]
    start with. *)
Definition participationStats_of_counts (participatingCount notParticipatingCount : Z) : Stats :=
  let totalResponses := participatingCount + notParticipatingCount in
  let participationRate :=
    if 0 <? totalResponses
    then Binary64.Math_round
           (PrimFloat.mul
              (PrimFloat.div (Binary64.of_count participatingCount)
                             (Binary64.of_count totalResponses))
              (Binary64.of_count 100))
    else 0 in
  mkStats participatingCount notParticipatingCount totalResponses participationRate.

Definition participationStats (data : Participation) : Stats :=
  participationStats_of_counts (Z.of_nat (size (participating data)))
                               (Z.of_nat (size (notParticipating data))).

Definition newline : string := String (ascii_of_nat 10) EmptyString.

(** The value of the field named Quick Stats. *)
Definition quickStats (data : Participation) : string :=
  let s := participationStats data in
  "**Total Responses:** " +:+ pretty (totalResponses s) +:+ newline
  +:+ "**Participation Rate:** " +:+ pretty (participationRate s) +:+ "%".

(* ================================================================== *)
(** * Registration by the send-boss route *)
(* ================================================================== *)

(** [participationData.set(message.id, initialParticipationData)] and
    [messageBossData.set(message.id, processedBossData)]. *)
Definition register (messageId : string) (boss : BossData) (st : Store) : Store :=
  mkStore (<[messageId := emptyParticipation]> (participationData st))
          (<[messageId := boss]> (messageBossData st)).

Inductive Response : Type :=
| Success (messageId : string)
| Failure (status : Z).

(** The object the route builds from the body. *)
Definition processedBossData (bossData : BossData) : BossData :=
  mkBoss (js_or (monster bossData) (name bossData))
         (js_or (name bossData) (monster bossData))
         (respawn_time bossData) (time_of_death bossData) (respawn_hours bossData).

(** The outcome of fetching the channel: the channel, [null], or an
    exception. *)
Inductive Fetched : Type :=
| Found
| Missing
| Thrown.

(** The route [POST /api/send-boss].  [connected] is
    [isConnected && discordClient]; [isAdmin] is [bossData.isAdmin];
    [channel] is the outcome of fetching the channel; [posted] is the id of
    the message when building the embed, sending it and attaching both
    reactions succeeded, and [None] when one of these calls threw.  An
    exception anywhere in the route is answered with status 500: one of
    [calculateRespawnTime], called to build the embed, or the one of
    [toISOString], which the route calls on every computed respawn time
    that is not [null] and which throws on an Invalid Date. *)
Definition send_boss (connected : bool) (isAdmin : Value) (bossData : BossData)
    (channel : Fetched) (posted : option string) (now : Z) (st : Store)
  : Response * Store :=
  if negb connected then (Failure 503, st)
  else if negb (truthy isAdmin) then (Failure 403, st)
  else if negb (truthy (monster bossData)) then (Failure 400, st)
  else
    match channel with
    | Thrown => (Failure 500, st)
    | Missing => (Failure 404, st)
    | Found =>
        let processed := processedBossData bossData in
        let throws :=
          match calculateRespawnTime processed now with
          | RangeError => true
          | Returned (Some d) => isNaN (getTime d)
          | Returned None => false
          end in
        if throws then (Failure 500, st)
        else
          match posted with
          | None => (Failure 500, st)
          | Some messageId => (Success messageId, register messageId processed st)
          end
    end.

(* ================================================================== *)
(** * The periodic update *)
(* ================================================================== *)

(** Removal of a message from both maps. *)
Definition evict (messageId : string) (st : Store) : Store :=
  mkStore (delete messageId (participationData st))
          (delete messageId (messageBossData st)).

(** What the transport answers during one update. *)
Record Transport : Type := mkTransport {
  channel_found : bool;
  message_found : string -> bool
}.

(** The body of the first loop for one entry: skipped without participation
    data or without the channel; a message that cannot be fetched is removed
    from tracking; otherwise the embed is edited, which leaves the maps as
    they are and catches its own exceptions. *)
Definition refreshEntry (tr : Transport) (messageId : string) (st : Store) : Store :=
  match participationData st !! messageId with
  | None => st
  | Some _ =>
      if negb (channel_found tr) then st
      else if negb (message_found tr messageId) then evict messageId st
      else st
  end.

Definition refreshAll (tr : Transport) (st : Store) : Store :=
  map_fold (fun messageId _ s => refreshEntry tr messageId s) st (messageBossData st).

Definition oneDay : Z := 24 * 60 * 60 * 1000.

(** The test of the second loop:
    [respawnTime && respawnTime.getTime() < oneDayAgo.getTime()], with
    [oneDayAgo = new Date(now.getTime() - 24 * 60 * 60 * 1000)].  The clock
    read inside [calculateRespawnTime] is taken at the instant [now] of the
    run. *)
Definition isOld (bossData : BossData) (now : Z) : Result bool :=
  let oneDayAgo := Date_of_num (Some (now - oneDay)) in
  match calculateRespawnTime bossData now with
  | RangeError => RangeError
  | Returned (Some respawnTime) =>
      Returned (num_lt (getTime respawnTime) (getTime oneDayAgo))
  | Returned None => Returned false
  end.

(** One step of the second loop.  The loop has no handler: an exception
    ends the run, and the state is not followed further. *)
Definition cleanEntry (now : Z) (messageId : string) (bossData : BossData)
    (sofar : Result Store) : Result Store :=
  match sofar with
  | RangeError => RangeError
  | Returned s =>
      match isOld bossData now with
      | RangeError => RangeError
      | Returned true => Returned (evict messageId s)
      | Returned false => Returned s
      end
  end.

(** The second loop: clean up old messages. *)
Definition cleanOldMessages (now : Z) (st : Store) : Result Store :=
  map_fold (cleanEntry now) (Returned st) (messageBossData st).

(** One run of the interval callback.  The clock reads of one run are taken
    at the same instant [now]. *)
Definition periodicUpdate (connected : bool) (tr : Transport) (now : Z) (st : Store)
  : Result Store :=
  if negb connected then Returned st
  else cleanOldMessages now (refreshAll tr st).

(** How the second loop leaves, with the maps as they are then: at its end,
    or by the exception of [calculateRespawnTime], which nothing in the loop
    or in the interval callback around it catches. *)
Inductive LoopExit : Type :=
| Completed (st : Store)
| Uncaught (st : Store).

(** The second loop over [entries], the entries of [messageBossData] in the
    order of the iterator, which is the order of insertion.  The loop
    deletes no entry but the one it is at, so the entries it visits are
    those the map had at its start.  [cleanOldMessages] above is the same
    loop without the order and without the state at an exception. *)
Fixpoint cleanOldEntries (now : Z) (entries : list (string * BossData)) (st : Store)
  : LoopExit :=
  match entries with
  | [] => Completed st
  | (messageId, bossData) :: rest =>
      match isOld bossData now with
      | RangeError => Uncaught st
      | Returned true => cleanOldEntries now rest (evict messageId st)
      | Returned false => cleanOldEntries now rest st
      end
  end.

(* ================================================================== *)
(** * The countdown as the specification words it *)
(* ================================================================== *)


(** The guard of the first branch of [calculateRespawnTime], as a boolean. *)
Definition future_respawn_time (boss : BossData) (now : Z) : bool :=
  truthy (respawn_time boss)
  && (negb (isNaN (getTime (new_Date (respawn_time boss))))
      && num_gt (getTime (new_Date (respawn_time boss))) (Some now)).

(** The guard of its second branch. *)
Definition death_and_hours (boss : BossData) : bool :=
  (truthy (time_of_death boss) && truthy (respawn_hours boss))
  && negb (isNaN (getTime (new_Date (time_of_death boss)))).

(** The last character of a string. *)
Fixpoint last_char (s : string) : option ascii :=
  match s with
  | EmptyString => None
  | String c EmptyString => Some c
  | String _ rest => last_char rest
  end.

(* ================================================================== *)
(** * Example data *)
(* ================================================================== *)

(** 2025-07-31T01:10:00Z is 1753924200000 ms after the epoch. *)
Definition death_instant : Z := 1753924200000.

(** A boss killed at [death_instant] that respawns after 2 hours. *)
Definition griffin : BossData :=
  mkBoss (Str "Griffin") Undefined Undefined (Str "2025-07-31T01:10:00Z") (Number 2).

Definition griffin_respawn : Z := death_instant + 2 * 3600000.

(** A boss whose only timing field is a respawn time that is no date. *)
Definition unscheduled : BossData :=
  mkBoss (Str "Griffin") Undefined (Str "TBD") Undefined Undefined.

(** A boss with a time of death and 0 respawn hours. *)
Definition instant_respawn : BossData :=
  mkBoss (Str "Griffin") Undefined Undefined (Str "2025-07-31T01:10:00Z") (Number 0).

(** A boss whose time of death plus hours lies beyond the valid times. *)
Definition overlong : BossData :=
  mkBoss (Str "Griffin") Undefined Undefined (Str "2025-07-31T01:10:00Z")
         (Number 3000000000).

(** A boss whose respawn time is the empty string. *)
Definition blank_respawn_time : BossData :=
  mkBoss (Str "Griffin") Undefined (Str "") (Str "2025-07-31T01:10:00Z") (Number 2).

(** The state after the griffin was posted as message M1. *)
Definition tracking_griffin : Store := register "M1" griffin emptyStore.

(** The same after user U1 reacted with the positive emoji. *)
Definition griffin_with_U1 : Store :=
  on_event (ReactionAdd "M1" emoji_yes "U1" false) tracking_griffin.

(** A transport that finds the channel and every message. *)
Definition all_found : Transport := mkTransport true (fun _ => true).

(** A transport that finds the channel and no message. *)
Definition none_found : Transport := mkTransport true (fun _ => false).

(* ================================================================== *)
(** * Predicates on the state *)
(* ================================================================== *)

(** No user id is in both sets of a record. *)
Definition disjoint_sets (data : Participation) : Prop :=
  participating data ## notParticipating data.

(** The record of a message, if it has one, has disjoint sets. *)
Definition disjoint_at (messageId : string) (st : Store) : Prop :=
  forall data, participationData st !! messageId = Some data -> disjoint_sets data.

(** The test under which the first loop of the periodic update removes an
    entry: participation data, the channel, and no message. *)
Definition unfetchable (tr : Transport) (messageId : string) (st : Store) : bool :=
  match participationData st !! messageId with
  | None => false
  | Some _ => channel_found tr && negb (message_found tr messageId)
  end.

(** The test of the second loop answers true. *)
Definition old (bossData : BossData) (now : Z) : bool :=
  match isOld bossData now with
  | Returned true => true
  | _ => false
  end.

(** The respawn time of every tracked message can be computed: no time of
    death plus hours outside the valid times. *)
Definition computable (now : Z) (st : Store) : Prop :=
  forall messageId bossData,
    messageBossData st !! messageId = Some bossData ->
    calculateRespawnTime bossData now <> RangeError.

(** A loop over the entries of [messageBossData] that removes the entries
    selected by [P] from both maps. *)
Definition evict_selected (P : string -> BossData -> Store -> bool)
    (entries : list (string * BossData)) (st : Store) : Store :=
  foldr (uncurry (fun messageId bossData s =>
                    if P messageId bossData s then evict messageId s else s))
        st entries.

(* ================================================================== *)
(** * The respawn-time policy of the test script *)
(* ================================================================== *)

(** [calculateRespawnTime(boss)] of the script that tests the respawn time
    fix: the respawn time wins whenever it parses, in the past as in the
    future; there is no fallback.  The function does not read the clock.
    Its second branch has the log line with [toISOString] too. *)
Definition script_calculateRespawnTime (boss : BossData) : Result (option Date) :=
  let respawnDate := new_Date (respawn_time boss) in
  if truthy (respawn_time boss) && negb (isNaN (getTime respawnDate))
  then Returned (Some respawnDate)
  else
    let deathTime := new_Date (time_of_death boss) in
    if (truthy (time_of_death boss) && truthy (respawn_hours boss))
       && negb (isNaN (getTime deathTime))
    then
      let respawnTime :=
        Date_of_num
          (num_add (getTime deathTime)
             (num_mul (num_mul (num_mul (ToNumber (respawn_hours boss))
                                        (Some 60)) (Some 60)) (Some 1000))) in
      if isNaN (getTime respawnTime) then RangeError
      else Returned (Some respawnTime)
    else Returned None.

(** [formatRespawnTime(boss)] of the script: hours and minutes, whatever the
    size of the difference. *)
Definition script_formatRespawnTime (boss : BossData) (now : Z) : Result string :=
  match script_calculateRespawnTime boss with
  | RangeError => RangeError
  | Returned None => Returned "Unknown"
  | Returned (Some respawnDate) =>
      match getTime respawnDate with
      | None => Returned "Unknown"
      | Some t =>
          let diffInMs := t - now in
          if diffInMs <=? 0 then Returned "Available Now!"
          else
            let hours := diffInMs / (1000 * 60 * 60) in
            let minutes := (diffInMs mod (1000 * 60 * 60)) / (1000 * 60) in
            Returned (pretty hours +:+ "h " +:+ pretty minutes +:+ "m")
      end
  end.

(* ================================================================== *)
(** * Embeds *)
(* ================================================================== *)

Section Embeds.

(** The host's [toLocaleString] of a valid time with the options of
    [formatDiscordDate] (short month, day, two-digit hour and minute). *)
Variable Date_toLocaleString : Z -> string.

(** The string of a value in a template literal. *)
Definition ToString (v : Value) : string :=
  match v with
  | Undefined => "undefined"
  | Null => "null"
  | Bool true => "true"
  | Bool false => "false"
  | Number n => pretty n
  | Str s => s
  end.

(** A field of an embed, as the program reads it from a message or hands
    it to the builder.  The builder's own validation is not part of the
    model. *)
Record Field : Type := mkField {
  field_name : string;
  field_value : Value;
  field_inline : bool
}.

(** The parts of an embed the program reads or sets; [footer_text] is
    [embed.footer?.text], [thumbnail_url] is [embed.thumbnail?.url]. *)
Record Embed : Type := mkEmbed {
  title : Value;
  color : Value;
  description : Value;
  footer_text : Value;
  timestamp : option Z;
  thumbnail_url : Value;
  fields : list Field
}.

Definition boss_name_field : string := "👹 Boss Name".
Definition respawn_time_field : string := "⏰ Respawn Time".
Definition points_field : string := "💰 Points".
Definition notes_field : string := "📝 Notes".
Definition participation_field : string := "👥 Participation Status".
Definition stats_field : string := "📊 Quick Stats".

Definition default_footer : string :=
  "React with ✅ to participate or ❌ to skip this boss • Updates in real-time".

(** [formatDiscordDate(boss)]: [null] without a valid respawn time. *)
Definition formatDiscordDate (boss : BossData) (now : Z) : Result (option string) :=
  match calculateRespawnTime boss now with
  | RangeError => RangeError
  | Returned None => Returned None
  | Returned (Some respawnDate) =>
      match getTime respawnDate with
      | None => Returned None
      | Some t => Returned (Some (Date_toLocaleString t))
      end
  end.

(** The value of the respawn time field: the countdown, and the date on a
    second line when there is one. *)
Definition timeValue (boss : BossData) (now : Z) : Result string :=
  match formatRespawnTime boss now with
  | RangeError => RangeError
  | Returned formattedTime =>
      match formatDiscordDate boss now with
      | RangeError => RangeError
      | Returned (Some formattedDate) =>
          if String.eqb formattedDate ""
          then Returned formattedTime
          else Returned (formattedTime +:+ newline +:+ formattedDate)
      | Returned None => Returned formattedTime
      end
  end.

(** The display names of a list of users, in its order; [fetchUser] is the
    name of the user the client fetched, [None] when the fetch threw. *)
Definition displayNames (fetchUser : string -> option string) (userIds : list string)
  : list string :=
  map (fun userId =>
         match fetchUser userId with
         | Some displayName => displayName
         | None => "User " +:+ userId
         end) userIds.

(** The names of one set in the participation field: ten at most. *)
Definition userList (users : list string) : string :=
  if (0 <? length users)%nat then
    String.concat ", " (take 10 users)
    +:+ (if (10 <? length users)%nat
         then " and " +:+ pretty (Z.of_nat (length users) - 10) +:+ " more..."
         else "")
  else "*No one yet*".

Definition participationValue (participatingCount notParticipatingCount : Z)
    (participatingUsers notParticipatingUsers : list string) : string :=
  "✅ **Participating (" +:+ pretty participatingCount +:+ "):**" +:+ newline
  +:+ userList participatingUsers
  +:+ newline +:+ newline
  +:+ "❌ **Not Participating (" +:+ pretty notParticipatingCount +:+ "):**" +:+ newline
  +:+ userList notParticipatingUsers.

(** [embed.fields.find(field => field.name === fieldName)] *)
Definition find_field (fieldName : string) (fs : list Field) : option Field :=
  List.find (fun f => String.eqb (field_name f) fieldName) fs.

(** The copy of a field the program adds when it found one. *)
Definition copied (found : option Field) : list Field :=
  match found with
  | Some f => [mkField (field_name f) (field_value f) (field_inline f || false)]
  | None => []
  end.

(** The fields [updateParticipationEmbed] gives the new embed.  [stored] is
    [messageBossData.get(message.id)]. *)
Definition updatedFields (fs : list Field) (stored : option BossData)
    (data : Participation) (participatingUsers notParticipatingUsers : list string)
    (now : Z) : Result (list Field) :=
  let stats := participationStats data in
  let participation :=
    [ mkField participation_field
        (Str (participationValue (participatingCount stats) (notParticipatingCount stats)
                participatingUsers notParticipatingUsers)) false;
      mkField stats_field (Str (quickStats data)) false ] in
  if (2 <=? length fs)%nat then
    let time :=
      match stored with
      | Some storedBossData =>
          match timeValue storedBossData now with
          | RangeError => RangeError
          | Returned v => Returned (Str v)
          end
      | None =>
          Returned (js_or (match find_field respawn_time_field fs with
                           | Some originalTimeField => field_value originalTimeField
                           | None => Undefined
                           end) (Str "Unknown"))
      end in
    match time with
    | RangeError => RangeError
    | Returned v =>
        Returned (copied (find_field boss_name_field fs)
                  ++ [mkField respawn_time_field v true]
                  ++ copied (find_field points_field fs)
                  ++ copied (find_field notes_field fs)
                  ++ participation)%list
    end
  else Returned participation.

(** [updateParticipationEmbed(message, participationData)]: the embed handed
    to [message.edit], or [None] when the message has no embed or an
    exception was caught.  [participatingIds] and [notParticipatingIds] are
    the user ids of the two sets in the order of their iteration. *)
Definition updateParticipationEmbed (messageId : string) (embed : option Embed)
    (data : Participation) (participatingIds notParticipatingIds : list string)
    (fetchUser : string -> option string) (now : Z) (st : Store) : option Embed :=
  match embed with
  | None => None
  | Some embed =>
      match updatedFields (fields embed) (messageBossData st !! messageId) data
              (displayNames fetchUser participatingIds)
              (displayNames fetchUser notParticipatingIds) now with
      | RangeError => None
      | Returned fs =>
          Some (mkEmbed (title embed) (color embed) (description embed)
                  (js_or (footer_text embed) (Str default_footer))
                  (Some now)
                  (if truthy (thumbnail_url embed) then thumbnail_url embed else Undefined)
                  fs)
      end
  end.

(** [createBossEmbed(bossData, participationData)]; [image] is
    [bossData.image_url || bossData.display_image]. *)
Definition createBossEmbed (bossData : BossData) (image : Value)
    (participationData : option Participation) (now : Z) : Result Embed :=
  let data :=
    match participationData with
    | Some d => d
    | None => emptyParticipation
    end in
  let stats := participationStats data in
  match timeValue bossData now with
  | RangeError => RangeError
  | Returned v =>
      Returned
        (mkEmbed
           (Str ("🔥 Boss Alert: " +:+ ToString (js_or (name bossData) (monster bossData))))
           (Number 16739125)
           (Str "@here A boss is ready for hunting! React below to indicate your participation.")
           (Str default_footer)
           (Some now)
           (if truthy image then image else Undefined)
           [ mkField boss_name_field (js_or (monster bossData) (Str "Unknown Boss")) true;
             mkField respawn_time_field (Str v) true;
             mkField participation_field
               (Str (participationValue (participatingCount stats)
                       (notParticipatingCount stats) [] [])) false;
             mkField stats_field (Str (quickStats data)) false ])
  end.

End Embeds.

(* ================================================================== *)
(** * The program as a whole *)
(* ================================================================== *)

(** What happens to the two maps: a reaction event, a request to post a boss,
    a run of the periodic update. *)
Inductive Action : Type :=
| React (e : Event)
| Post (connected : bool) (isAdmin : Value) (bossData : BossData)
       (channel : Fetched) (posted : option string) (now : Z)
| Update (connected : bool) (tr : Transport) (now : Z).

Definition act (a : Action) (st : Store) : Result Store :=
  match a with
  | React e => Returned (on_event e st)
  | Post connected isAdmin bossData channel posted now =>
      Returned (snd (send_boss connected isAdmin bossData channel posted now st))
  | Update connected tr now => periodicUpdate connected tr now st
  end.

(** The states the program can be in, from two empty maps.  A run of the
    update that ends in an exception has removed some messages from both
    maps before; [reach_evict] covers what it leaves. *)
Inductive reachable : Store -> Prop :=
| reach_start : reachable emptyStore
| reach_act a st st' : reachable st -> act a st = Returned st' -> reachable st'
| reach_evict messageId st : reachable st -> reachable (evict messageId st).

(** The snapshot of a message has a truthy [monster] and [name]. *)
Definition named (bossData : BossData) : Prop :=
  truthy (monster bossData) = true /\ truthy (name bossData) = true.

(** Every message with a snapshot has participation data, every snapshot is
    named, and no record has a user in both sets. *)
Definition well_formed (st : Store) : Prop :=
  (forall messageId bossData,
      messageBossData st !! messageId = Some bossData ->
      is_Some (participationData st !! messageId) /\ named bossData)
  /\ (forall messageId data,
        participationData st !! messageId = Some data -> disjoint_sets data).

(** The message a reaction event is about. *)
Definition message_of (e : Event) : string :=
  match e with
  | ReactionAdd messageId _ _ _ => messageId
  | ReactionRemove messageId _ _ _ => messageId
  end.

(** The state after the route posted the griffin as message M1. *)
Definition posted_griffin : Store := register "M1" (processedBossData griffin) emptyStore.

(** A boss whose respawn time is its time of death: once that instant is
    reached, the time of death plus two hours takes over. *)
Definition respawned : BossData :=
  mkBoss (Str "Griffin") Undefined (Str "2025-07-31T01:10:00Z")
         (Str "2025-07-31T01:10:00Z") (Number 2).

(** A boss whose respawn time is two hours after the death of the griffin
    and whose hours are no number. *)
Definition drake : BossData :=
  mkBoss (Str "Drake") Undefined (Str "2025-07-31T03:10:00Z")
         (Str "2025-07-31T01:10:00Z") (Str "soon").

(** The state after the route posted the drake as message M1 and then the
    griffin as message M2, and the entries of [messageBossData] in the order
    of their insertion. *)
Definition drake_then_griffin : Store :=
  register "M2" (processedBossData griffin)
    (register "M1" (processedBossData drake) emptyStore).

Definition drake_then_griffin_entries : list (string * BossData) :=
  [("M1", processedBossData drake); ("M2", processedBossData griffin)].

(** A host rendering of a date, to run the embeds. *)
Definition plain_date (t : Z) : string := "t=" +:+ pretty t.

(** The fields of an embed with a points field, a field the program does
    not know, and the fields in another order. *)
Definition old_fields : list Field :=
  [ mkField points_field (Str "50") true;
    mkField "Location" (Str "Cave") true;
    mkField boss_name_field (Str "Griffin") true;
    mkField respawn_time_field (Str "2h 0m") true;
    mkField participation_field (Str "nobody") false;
    mkField stats_field (Str "none") false ].

(** The fields of an embed that has the boss name only. *)
Definition lone_field : list Field := [mkField boss_name_field (Str "Griffin") true].

(** The reaction of user U1 on message M1. *)
Definition U1_says_yes : Event := ReactionAdd "M1" emoji_yes "U1" false.

(* ================================================================== *)
(** * Properties of the respawn-time policy *)
(* ================================================================== *)

Lemma TimeClip_Some (x : num) (t : Z) : TimeClip x = Some t -> x = Some t.
Proof.
  unfold TimeClip, NaN. destruct x as [a|]; [|discriminate].
  destruct (Z.abs a <=? maxTime); congruence.
Qed.

Lemma TimeClip_in_range (t : Z) : Z.abs t <= maxTime -> TimeClip (Some t) = Some t.
Proof.
  intros H. simpl. destruct (Z.leb_spec (Z.abs t) maxTime); [reflexivity | lia].
Qed.

(** (a) A present respawn time that parses and lies in the future wins. *)
Lemma calculateRespawnTime_future (boss : BossData) (now t : Z) :
  truthy (respawn_time boss) = true ->
  getTime (new_Date (respawn_time boss)) = Some t ->
  now < t ->
  calculateRespawnTime boss now = Returned (Some (new_Date (respawn_time boss))).
Proof.
  intros Hp Ht Hlt. unfold calculateRespawnTime.
  rewrite Hp, Ht. simpl.
  destruct (Z.ltb_spec now t); [reflexivity | lia].
Qed.

(** (b) Otherwise the time of death plus the respawn hours, when both are
    present, the time of death parses and the sum is a valid time. *)
Lemma calculateRespawnTime_from_death (boss : BossData) (now td h : Z) :
  future_respawn_time boss now = false ->
  truthy (time_of_death boss) = true ->
  truthy (respawn_hours boss) = true ->
  getTime (new_Date (time_of_death boss)) = Some td ->
  ToNumber (respawn_hours boss) = Some h ->
  Z.abs (td + h * 3600000) <= maxTime ->
  calculateRespawnTime boss now = Returned (Some (mkDate (Some (td + h * 3600000)))).
Proof.
  intros Ha Hd Hh Htd Hn Hr. unfold calculateRespawnTime.
  fold (future_respawn_time boss now). rewrite Ha, Hd, Hh, Htd, Hn.
  cbn [andb negb num_add num_mul]. cbv zeta. unfold Date_of_num. cbn [getTime].
  replace (td + h * 60 * 60 * 1000) with (td + h * 3600000) by lia.
  rewrite TimeClip_in_range by assumption. reflexivity.
Qed.

(** (b) throws when the sum is not a valid time. *)
Lemma calculateRespawnTime_throws (boss : BossData) (now : Z) :
  calculateRespawnTime boss now = RangeError <->
  future_respawn_time boss now = false
  /\ death_and_hours boss = true
  /\ TimeClip (num_add (getTime (new_Date (time_of_death boss)))
                 (num_mul (num_mul (num_mul (ToNumber (respawn_hours boss))
                                            (Some 60)) (Some 60)) (Some 1000))) = NaN.
Proof.
  unfold calculateRespawnTime.
  fold (future_respawn_time boss now). fold (death_and_hours boss).
  destruct (future_respawn_time boss now);
    [split; [discriminate | intros [? _]; discriminate]|].
  destruct (death_and_hours boss).
  - cbn [Date_of_num getTime].
    destruct (TimeClip _) as [t|]; simpl.
    + split; [discriminate | intros (_ & _ & ?); discriminate].
    + split; auto.
  - destruct (truthy (respawn_time boss));
      (split; [discriminate | intros (_ & ? & _); discriminate]).
Qed.

(** (c) Otherwise a present respawn time, as the Date it parses to. *)
Lemma calculateRespawnTime_fallback (boss : BossData) (now : Z) :
  future_respawn_time boss now = false ->
  death_and_hours boss = false ->
  truthy (respawn_time boss) = true ->
  calculateRespawnTime boss now = Returned (Some (new_Date (respawn_time boss))).
Proof.
  intros Ha Hb Hp. unfold calculateRespawnTime.
  fold (future_respawn_time boss now). fold (death_and_hours boss).
  rewrite Ha, Hb, Hp. reflexivity.
Qed.

(** (d) [null] exactly when no branch applies. *)
Lemma calculateRespawnTime_null (boss : BossData) (now : Z) :
  calculateRespawnTime boss now = Returned None <->
  truthy (respawn_time boss) = false /\ death_and_hours boss = false.
Proof.
  unfold calculateRespawnTime.
  fold (death_and_hours boss).
  destruct (truthy (respawn_time boss)); simpl.
  - destruct (_ && _); [split; [discriminate | intros [? _]; discriminate]|].
    destruct (death_and_hours boss).
    + destruct (isNaN _); (split; [discriminate | intros [? _]; discriminate]).
    + split; [discriminate | intros [? _]; discriminate].
  - destruct (death_and_hours boss).
    + destruct (isNaN _); (split; [discriminate | intros [_ ?]; discriminate]).
    + split; auto.
Qed.

(** A result reached while the respawn time is not in the future does not
    depend on the clock. *)
Lemma calculateRespawnTime_not_future (boss : BossData) (now now' : Z) :
  future_respawn_time boss now = false ->
  future_respawn_time boss now' = false ->
  calculateRespawnTime boss now' = calculateRespawnTime boss now.
Proof.
  intros H H'. unfold calculateRespawnTime.
  fold (future_respawn_time boss now). fold (future_respawn_time boss now').
  rewrite H, H'. reflexivity.
Qed.

Lemma future_respawn_time_later (boss : BossData) (now now' : Z) :
  now <= now' ->
  future_respawn_time boss now = false ->
  future_respawn_time boss now' = false.
Proof.
  unfold future_respawn_time. intros Hle.
  destruct (truthy (respawn_time boss)); simpl; [|reflexivity].
  destruct (getTime (new_Date (respawn_time boss))) as [t|]; simpl; [|reflexivity].
  destruct (Z.ltb_spec now t), (Z.ltb_spec now' t); try reflexivity; try discriminate; lia.
Qed.

(** In the future branch the result lies after the clock. *)
Lemma future_respawn_time_result (boss : BossData) (now : Z) :
  future_respawn_time boss now = true ->
  exists t, calculateRespawnTime boss now = Returned (Some (mkDate (Some t))) /\ now < t.
Proof.
  unfold calculateRespawnTime. fold (future_respawn_time boss now).
  intros H. rewrite H. unfold future_respawn_time in H.
  destruct (truthy (respawn_time boss)); [|discriminate].
  destruct (new_Date (respawn_time boss)) as [[t|]]; simpl in *; [|discriminate].
  exists t. split; [reflexivity|]. destruct (Z.ltb_spec now t); [lia | discriminate].
Qed.

Lemma last_char_append (s : string) (c : ascii) :
  last_char (s +:+ String c EmptyString) = Some c.
Proof.
  induction s as [|a r IH]; [reflexivity|].
  simpl. destruct r; simpl in *; assumption.
Qed.

Lemma append_assoc_r (a b c : string) : (a +:+ b) +:+ c = a +:+ (b +:+ c).
Proof.
  induction a as [|x a IH]; [reflexivity|].
  change (String x ((a +:+ b) +:+ c) = String x (a +:+ (b +:+ c))). now rewrite IH.
Qed.

Lemma countdown_last_char (d : Z) :
  exists s c, countdown d = s +:+ String c EmptyString /\ c <> "!"%char.
Proof.
  unfold countdown.
  repeat match goal with |- context [if ?b then _ else _] => destruct b end.
  - exists (pretty (d / 1000 / 60 / 60 / 24) +:+ "d " +:+ pretty ((d / 1000 / 60 / 60) mod 24)), "h"%char.
    split; [|discriminate]. now rewrite !append_assoc_r.
  - exists (pretty (d / 1000 / 60 / 60) +:+ "h " +:+ pretty ((d / 1000 / 60) mod 60)), "m"%char.
    split; [|discriminate]. now rewrite !append_assoc_r.
  - exists (pretty (d / 1000 / 60)), "m"%char. split; [reflexivity | discriminate].
  - exists (pretty (d / 1000)), "s"%char. split; [reflexivity | discriminate].
Qed.

Lemma countdown_not_available (d : Z) : countdown d <> "Available Now!".
Proof.
  destruct (countdown_last_char d) as (s & c & E & Hc).
  intros H. rewrite E in H.
  pose proof (last_char_append s c) as L. rewrite H in L.
  simpl in L. congruence.
Qed.

(** ["Available Now!"] is the answer exactly on a valid respawn instant that
    is not after the clock. *)
Lemma formatRespawnTime_at_available (boss : BossData) (calcNow now : Z) :
  formatRespawnTime_at boss calcNow now = Returned "Available Now!" <->
  exists t, calculateRespawnTime boss calcNow = Returned (Some (mkDate (Some t)))
            /\ t <= now.
Proof.
  unfold formatRespawnTime_at.
  destruct (calculateRespawnTime boss calcNow) as [[[[t|]]|]|]; simpl.
  - destruct (Z.leb_spec (t - now) 0).
    + split; [intros _; exists t; split; [reflexivity | lia] | reflexivity].
    + split.
      * intros H'. inversion H' as [H'']. now apply countdown_not_available in H''.
      * intros (t' & E & Hle). inversion E; subst. lia.
  - split; [discriminate | intros (t & E & _); discriminate].
  - split; [discriminate | intros (t & E & _); discriminate].
  - split; [discriminate | intros (t & E & _); discriminate].
Qed.

(** With the two clock reads of a call apart: an answer ["Available Now!"]
    that did not come from a respawn time still in the future at the first
    read stays at every later call. *)
Lemma formatRespawnTime_at_available_later (boss : BossData) (calcNow now calcNow' now' : Z) :
  calcNow <= calcNow' ->
  now <= now' ->
  future_respawn_time boss calcNow = false ->
  formatRespawnTime_at boss calcNow now = Returned "Available Now!" ->
  formatRespawnTime_at boss calcNow' now' = Returned "Available Now!".
Proof.
  intros Hc Hn F H.
  apply formatRespawnTime_at_available in H as (t & E & Ht).
  apply formatRespawnTime_at_available.
  exists t. split; [|lia].
  rewrite (calculateRespawnTime_not_future boss calcNow calcNow'); auto.
  eapply future_respawn_time_later; eauto.
Qed.

(** A present respawn time that does not parse is returned by the fallback
    as the Invalid Date it is, when the time of death and the hours do not
    apply. *)
Lemma calculateRespawnTime_unparseable (boss : BossData) (now : Z) :
  truthy (respawn_time boss) = true ->
  getTime (new_Date (respawn_time boss)) = NaN ->
  death_and_hours boss = false ->
  calculateRespawnTime boss now = Returned (Some (mkDate NaN)).
Proof.
  intros Hp Hn Hd.
  rewrite calculateRespawnTime_fallback; auto.
  - destruct (new_Date (respawn_time boss)) as [x]. simpl in Hn. now subst.
  - unfold future_respawn_time. now rewrite Hp, Hn.
Qed.

Lemma countdown_units (delta : Z) :
  0 < delta ->
  (86400000 <= delta ->
     countdown delta =
       pretty (delta / 86400000) +:+ "d " +:+ pretty ((delta / 3600000) mod 24) +:+ "h")
  /\ (3600000 <= delta < 86400000 ->
     countdown delta =
       pretty (delta / 3600000) +:+ "h " +:+ pretty ((delta / 60000) mod 60) +:+ "m")
  /\ (60000 <= delta < 3600000 -> countdown delta = pretty (delta / 60000) +:+ "m")
  /\ (delta < 60000 -> countdown delta = pretty (delta / 1000) +:+ "s").
Proof.
  intros Hpos. unfold countdown.
  assert (E1 : delta / 1000 / 60 = delta / 60000) by (rewrite Zdiv_Zdiv by lia; reflexivity).
  assert (E2 : delta / 1000 / 60 / 60 = delta / 3600000)
    by (rewrite E1, Zdiv_Zdiv by lia; reflexivity).
  assert (E3 : delta / 1000 / 60 / 60 / 24 = delta / 86400000)
    by (rewrite E2, Zdiv_Zdiv by lia; reflexivity).
  rewrite E3, E2, E1.
  assert (D : 0 < delta / 86400000 <-> 86400000 <= delta)
    by (Z.to_euclidean_division_equations; lia).
  assert (H : 0 < delta / 3600000 <-> 3600000 <= delta)
    by (Z.to_euclidean_division_equations; lia).
  assert (M : 0 < delta / 60000 <-> 60000 <= delta)
    by (Z.to_euclidean_division_equations; lia).
  destruct (Z.ltb_spec 0 (delta / 86400000)); [repeat split; intros; first [reflexivity | lia]|].
  destruct (Z.ltb_spec 0 (delta / 3600000)); [repeat split; intros; first [reflexivity | lia]|].
  destruct (Z.ltb_spec 0 (delta / 60000)); repeat split; intros; first [reflexivity | lia].
Qed.

(* ------------------------------------------------------------------ *)
(** ** The claims on the respawn-time policy *)
(* ------------------------------------------------------------------ *)

(** C10.  A falsy timing field counts as a missing one; 0 and the empty
    string are falsy.  With [respawn_hours] falsy (0 in particular) the
    branch adding the hours to the time of death is skipped, whatever the
    time of death: the result is the one of the snapshot without
    [respawn_hours], that is the respawn time of the first branch or of the
    fallback, or [null].  With [respawn_time] falsy (the empty string in
    particular) neither the future-preferring branch nor the fallback uses
    it: the result is the one of the snapshot without [respawn_time], which
    comes from the time of death and the hours or is [null]. *)
Theorem falsy_timing_fields_are_absent (boss : BossData) (now : Z) :
  truthy (Number 0) = false
  /\ truthy (Str "") = false
  /\ (truthy (respawn_hours boss) = false ->
     death_and_hours boss = false
     /\ calculateRespawnTime boss now =
          calculateRespawnTime
            (mkBoss (monster boss) (name boss) (respawn_time boss)
                    (time_of_death boss) Undefined) now
     /\ calculateRespawnTime boss now =
          (if future_respawn_time boss now
           then Returned (Some (new_Date (respawn_time boss)))
           else if truthy (respawn_time boss)
           then Returned (Some (new_Date (respawn_time boss)))
           else Returned None))
  /\ (truthy (respawn_time boss) = false ->
     future_respawn_time boss now = false
     /\ calculateRespawnTime boss now =
          calculateRespawnTime
            (mkBoss (monster boss) (name boss) Undefined
                    (time_of_death boss) (respawn_hours boss)) now
     /\ (death_and_hours boss = false -> calculateRespawnTime boss now = Returned None)
     /\ (forall d, calculateRespawnTime boss now = Returned (Some d) ->
           death_and_hours boss = true
           /\ getTime d =
                num_add (getTime (new_Date (time_of_death boss)))
                  (num_mul (num_mul (num_mul (ToNumber (respawn_hours boss))
                                             (Some 60)) (Some 60)) (Some 1000)))).
Proof.
  split; [reflexivity|]. split; [reflexivity|].
  split; intros E.
  - unfold death_and_hours, future_respawn_time, calculateRespawnTime.
    cbn [respawn_time time_of_death respawn_hours truthy].
    rewrite E, !andb_false_r. cbn [andb]. auto.
  - unfold death_and_hours, future_respawn_time, calculateRespawnTime.
    cbn [respawn_time time_of_death respawn_hours truthy].
    rewrite E. cbn [andb].
    split; [reflexivity|]. split; [reflexivity|]. split.
    + intros ->. reflexivity.
    + intros d. destruct (_ && _); [|discriminate].
      cbv zeta. unfold Date_of_num. cbn [getTime].
      destruct (TimeClip _) as [t|] eqn:T; cbn [isNaN]; [|discriminate].
      intros [= <-]. split; [reflexivity|]. cbn [getTime].
      symmetry. now apply TimeClip_Some.
Qed.

(** C5, as the program has it.  A call of [formatRespawnTime] reads the
    clock twice: in [calculateRespawnTime] ([calcNow]) and for the
    difference ([now]).  Once a call answers ["Available Now!"] for a
    snapshot, every later call answers ["Available Now!"] for it, provided
    the respawn time of the snapshot was not in the future at the first
    read of the call; this is so whenever the first read is not before the
    second, as when both fall on the same instant.  (A call whose reads lie
    on either side of the respawn time is not covered: its answer can be
    followed by a countdown.) *)
Theorem formatRespawnTime_available_forever (boss : BossData)
    (calcNow now calcNow' now' : Z) :
  calcNow <= calcNow' ->
  now <= now' ->
  future_respawn_time boss calcNow = false \/ now <= calcNow ->
  formatRespawnTime_at boss calcNow now = Returned "Available Now!" ->
  formatRespawnTime_at boss calcNow' now' = Returned "Available Now!".
Proof.
  intros Hc Hn Hreads H.
  assert (F : future_respawn_time boss calcNow = false).
  { destruct Hreads as [F | Hle]; [exact F|].
    destruct (future_respawn_time boss calcNow) eqn:F; [|reflexivity].
    apply formatRespawnTime_at_available in H as (t & E & Ht).
    apply future_respawn_time_result in F as (t' & E' & Hlt).
    rewrite E in E'. inversion E'; subst. lia. }
  now apply (formatRespawnTime_at_available_later boss calcNow now calcNow' now').
Qed.


(* ================================================================== *)
(** * Properties of the loops over the tracked messages *)
(* ================================================================== *)

Lemma evict_lookup_ne (k k' : string) (st : Store) :
  k <> k' ->
  participationData (evict k st) !! k' = participationData st !! k'
  /\ messageBossData (evict k st) !! k' = messageBossData st !! k'.
Proof.
  intros Hne. unfold evict; simpl. now rewrite !lookup_delete_ne.
Qed.

Lemma evict_lookup_eq (k : string) (st : Store) :
  participationData (evict k st) !! k = None
  /\ messageBossData (evict k st) !! k = None.
Proof. unfold evict; simpl. now rewrite !lookup_delete_eq. Qed.

Lemma evict_selected_cons P (k : string) (b : BossData)
    (entries : list (string * BossData)) (st : Store) :
  evict_selected P ((k, b) :: entries) st =
    if P k b (evict_selected P entries st)
    then evict k (evict_selected P entries st)
    else evict_selected P entries st.
Proof. reflexivity. Qed.

(** The loop leaves the keys it does not visit alone. *)
Lemma evict_selected_unvisited P (entries : list (string * BossData)) (st : Store) (k : string) :
  k ∉ entries.*1 ->
  participationData (evict_selected P entries st) !! k = participationData st !! k
  /\ messageBossData (evict_selected P entries st) !! k = messageBossData st !! k.
Proof.
  induction entries as [|[k0 b0] l IH]; intros Hk; [split; reflexivity|].
  rewrite fmap_cons, not_elem_of_cons in Hk. destruct Hk as [Hne Hk].
  specialize (IH Hk). simpl in Hne.
  rewrite evict_selected_cons.
  destruct (P k0 b0 _); [|exact IH].
  destruct (evict_lookup_ne k0 k (evict_selected P l st)) as [E1 E2]; [congruence|].
  rewrite E1, E2. exact IH.
Qed.

(** On a visited key, when the selection reads nothing but the
    participation data of that key: the entry is gone from both maps if it
    was selected, and as before otherwise. *)
Lemma evict_selected_visited P (entries : list (string * BossData)) (st : Store)
    (k : string) (b : BossData) :
  (forall k b s s',
      participationData s !! k = participationData s' !! k -> P k b s = P k b s') ->
  NoDup entries.*1 ->
  (k, b) ∈ entries ->
  participationData (evict_selected P entries st) !! k =
    (if P k b st then None else participationData st !! k)
  /\ messageBossData (evict_selected P entries st) !! k =
    (if P k b st then None else messageBossData st !! k).
Proof.
  intros Hloc. induction entries as [|[k0 b0] l IH]; intros Hnd Hin.
  - now apply elem_of_nil in Hin.
  - rewrite fmap_cons in Hnd. apply NoDup_cons in Hnd as [Hk0 Hnd].
    simpl in Hk0.
    apply elem_of_cons in Hin as [Heq|Hin].
    + inversion Heq; subst k0 b0.
      destruct (evict_selected_unvisited P l st k Hk0) as [E1 E2].
      rewrite evict_selected_cons.
      rewrite (Hloc k b _ st E1).
      destruct (P k b st).
      * apply evict_lookup_eq.
      * split; assumption.
    + assert (Hne : k0 <> k).
      { intros ->. apply Hk0. apply list_elem_of_fmap. now exists (k, b). }
      specialize (IH Hnd Hin).
      rewrite evict_selected_cons.
      destruct (P k0 b0 _); [|exact IH].
      destruct (evict_lookup_ne k0 k (evict_selected P l st) Hne) as [E1 E2].
      rewrite E1, E2. exact IH.
Qed.

Lemma isOld_returns (b : BossData) (now : Z) :
  calculateRespawnTime b now <> RangeError -> isOld b now = Returned (old b now).
Proof.
  unfold old, isOld. destruct (calculateRespawnTime b now) as [[d|]|]; try reflexivity.
  - intros _. now destruct (num_lt _ _).
  - intros H. now contradiction H.
Qed.

(** The second loop runs to its end when every respawn time can be
    computed. *)
Lemma cleanOldMessages_returns (now : Z) (st : Store) :
  computable now st ->
  cleanOldMessages now st =
    Returned (evict_selected (fun _ b _ => old b now)
                (map_to_list (messageBossData st)) st).
Proof.
  intros Hc. unfold cleanOldMessages. rewrite map_fold_foldr.
  assert (F : forall l,
             (forall k b, (k, b) ∈ l -> calculateRespawnTime b now <> RangeError) ->
             foldr (uncurry (cleanEntry now)) (Returned st) l
             = Returned (evict_selected (fun _ b _ => old b now) l st)).
  { induction l as [|[k0 b0] l IH]; intros Hl; [reflexivity|].
    rewrite evict_selected_cons. simpl. rewrite IH.
    - unfold cleanEntry. rewrite isOld_returns by (apply (Hl k0); left).
      now destruct (old b0 now).
    - intros k b Hin. apply (Hl k). now right. }
  apply F. intros k b Hin. apply (Hc k). now apply elem_of_map_to_list.
Qed.

(** It ends in the exception as soon as one respawn time cannot. *)
Lemma cleanOldMessages_throws (now : Z) (st : Store) (k : string) (b : BossData) :
  messageBossData st !! k = Some b ->
  calculateRespawnTime b now = RangeError ->
  cleanOldMessages now st = RangeError.
Proof.
  intros Hk Hb. unfold cleanOldMessages. rewrite map_fold_foldr.
  apply elem_of_map_to_list in Hk.
  induction (map_to_list (messageBossData st)) as [|[k0 b0] l IH].
  - now apply elem_of_nil in Hk.
  - simpl. apply elem_of_cons in Hk as [Heq|Hin].
    + inversion Heq; subst k0 b0. unfold cleanEntry at 1.
      destruct (foldr _ _ l); [|reflexivity].
      unfold isOld. now rewrite Hb.
    + rewrite (IH Hin). reflexivity.
Qed.

(** What the second loop does to a key. *)
Lemma cleanOldMessages_lookup (now : Z) (st : Store) :
  computable now st ->
  exists st', cleanOldMessages now st = Returned st'
  /\ forall k,
       messageBossData st' !! k =
         match messageBossData st !! k with
         | Some b => if old b now then None else Some b
         | None => None
         end
       /\ participationData st' !! k =
         match messageBossData st !! k with
         | Some b => if old b now then None else participationData st !! k
         | None => participationData st !! k
         end.
Proof.
  intros Hc. eexists. split; [now apply cleanOldMessages_returns|].
  intros k.
  destruct (messageBossData st !! k) as [b|] eqn:E.
  - destruct (evict_selected_visited (fun _ b _ => old b now)
                (map_to_list (messageBossData st)) st k b) as [E1 E2].
    + reflexivity.
    + apply NoDup_fst_map_to_list.
    + now apply elem_of_map_to_list.
    + rewrite E1, E2, E. split; reflexivity.
  - destruct (evict_selected_unvisited (fun _ b _ => old b now)
                (map_to_list (messageBossData st)) st k) as [E1 E2].
    + intros Hin. apply list_elem_of_fmap in Hin as ([k' b'] & -> & Hin).
      apply elem_of_map_to_list in Hin. simpl in E. congruence.
    + rewrite E1, E2, E. split; reflexivity.
Qed.

Lemma refreshEntry_unfetchable (tr : Transport) (k : string) (st : Store) :
  refreshEntry tr k st = if unfetchable tr k st then evict k st else st.
Proof.
  unfold refreshEntry, unfetchable.
  destruct (participationData st !! k); [|reflexivity].
  destruct (channel_found tr), (message_found tr k); reflexivity.
Qed.

(** What the first loop does to a key. *)
Lemma refreshAll_lookup (tr : Transport) (st : Store) (k : string) :
  messageBossData (refreshAll tr st) !! k =
    match messageBossData st !! k with
    | Some b => if unfetchable tr k st then None else Some b
    | None => None
    end
  /\ participationData (refreshAll tr st) !! k =
    match messageBossData st !! k with
    | Some b => if unfetchable tr k st then None else participationData st !! k
    | None => participationData st !! k
    end.
Proof.
  unfold refreshAll. rewrite map_fold_foldr.
  assert (F : forall l s,
             foldr (uncurry (fun messageId (_ : BossData) s => refreshEntry tr messageId s)) s l
             = evict_selected (fun k _ s => unfetchable tr k s) l s).
  { induction l as [|[k0 b0] l IH]; intros s; [reflexivity|].
    rewrite evict_selected_cons, <- IH. simpl. apply refreshEntry_unfetchable. }
  rewrite F.
  destruct (messageBossData st !! k) as [b|] eqn:E.
  - destruct (evict_selected_visited (fun k _ s => unfetchable tr k s)
                (map_to_list (messageBossData st)) st k b) as [E1 E2].
    + intros k' _ s s' H. unfold unfetchable. now rewrite H.
    + apply NoDup_fst_map_to_list.
    + now apply elem_of_map_to_list.
    + rewrite E1, E2, E. split; reflexivity.
  - destruct (evict_selected_unvisited (fun k _ s => unfetchable tr k s)
                (map_to_list (messageBossData st)) st k) as [E1 E2].
    + intros Hin. apply list_elem_of_fmap in Hin as ([k' b'] & -> & Hin).
      apply elem_of_map_to_list in Hin. simpl in E. congruence.
    + rewrite E1, E2, E. split; reflexivity.
Qed.


(** The staleness test, spelled out: a valid respawn instant more than 24
    hours before the clock. *)
Lemma old_spec (b : BossData) (now : Z) :
  0 <= now <= maxTime ->
  old b now = true <->
  exists t, calculateRespawnTime b now = Returned (Some (mkDate (Some t)))
            /\ t < now - oneDay.
Proof.
  intros Hnow. unfold old, isOld, Date_of_num.
  rewrite TimeClip_in_range by (unfold maxTime, oneDay in *; lia).
  cbn [getTime].
  destruct (calculateRespawnTime b now) as [[[[t|]]|]|]; simpl.
  - destruct (Z.ltb_spec t (now - oneDay)).
    + split; [intros _; exists t; auto | reflexivity].
    + split; [discriminate | intros (t' & E & Hlt); inversion E; subst; lia].
  - split; [discriminate | intros (t' & E & _); discriminate].
  - split; [discriminate | intros (t' & E & _); discriminate].
  - split; [discriminate | intros (t' & E & _); discriminate].
Qed.

(* ------------------------------------------------------------------ *)
(** ** The clean-up of old messages when every respawn time is computed *)
(* ------------------------------------------------------------------ *)


(* ------------------------------------------------------------------ *)
(** ** The claim on the registration *)
(* ------------------------------------------------------------------ *)

(** C9, as the program has it.  Registration never fails: whether or not the
    message id has entries already, [register] leaves it with two empty sets
    and the new snapshot and leaves every other id alone; an entry the id
    had is overwritten.  The route answers with success whenever its guards
    pass, the respawn time it computes is [null] or valid, and the message
    was posted. *)
Theorem register_overwrites (st : Store) (messageId : string) (boss : BossData) :
  participationData (register messageId boss st) !! messageId = Some emptyParticipation
  /\ messageBossData (register messageId boss st) !! messageId = Some boss
  /\ (forall k, k <> messageId ->
        participationData (register messageId boss st) !! k = participationData st !! k
        /\ messageBossData (register messageId boss st) !! k = messageBossData st !! k)
  /\ (forall (isAdmin : Value) (bossData : BossData) (now : Z),
        truthy isAdmin = true ->
        truthy (monster bossData) = true ->
        (calculateRespawnTime (processedBossData bossData) now = Returned None
         \/ exists t, calculateRespawnTime (processedBossData bossData) now
                        = Returned (Some (mkDate (Some t)))) ->
        send_boss true isAdmin bossData Found (Some messageId) now st
          = (Success messageId, register messageId (processedBossData bossData) st)).
Proof.
  unfold register; simpl.
  split; [apply lookup_insert_eq|]. split; [apply lookup_insert_eq|].
  split.
  - intros k Hk. now rewrite !lookup_insert_ne by congruence.
  - intros isAdmin bossData now Ha Hm Hv. unfold send_boss. simpl.
    rewrite Ha, Hm. simpl.
    destruct Hv as [-> | [t ->]]; reflexivity.
Qed.

(* ================================================================== *)
(** * More on the periodic update *)
(* ================================================================== *)

(** Two states with the same entries are the same state. *)
Lemma store_eq (st st' : Store) :
  (forall k, participationData st !! k = participationData st' !! k) ->
  (forall k, messageBossData st !! k = messageBossData st' !! k) ->
  st = st'.
Proof.
  destruct st as [pd mbd], st' as [pd' mbd']. simpl. intros H1 H2.
  f_equal; now apply map_eq.
Qed.

Lemma cleanOldMessages_returned (now : Z) (st st' : Store) :
  cleanOldMessages now st = Returned st' -> computable now st.
Proof.
  intros E k b Hk Hthrow.
  rewrite (cleanOldMessages_throws now st k b Hk Hthrow) in E. discriminate.
Qed.

(** X1.  The clean-up loop runs to its end exactly when the respawn time
    of every tracked message can be computed: one snapshot whose time of
    death plus hours is not a valid time ends the run in the RangeError. *)
Theorem cleanOldMessages_returns_iff (now : Z) (st : Store) :
  (exists st', cleanOldMessages now st = Returned st') <-> computable now st.
Proof.
  split.
  - intros [st' E]. now apply (cleanOldMessages_returned now st st').
  - intros Hc. eexists. now apply cleanOldMessages_returns.
Qed.

(** X2.  A run of the periodic update only removes: an entry of either map
    after the run was there before, with the same value; and a message
    whose snapshot the run removed has no participation record left. *)
Theorem periodicUpdate_only_removes (connected : bool) (tr : Transport) (now : Z)
    (st st' : Store) :
  periodicUpdate connected tr now st = Returned st' ->
  forall k,
    (forall b, messageBossData st' !! k = Some b -> messageBossData st !! k = Some b)
    /\ (forall d, participationData st' !! k = Some d -> participationData st !! k = Some d)
    /\ (is_Some (messageBossData st !! k) -> messageBossData st' !! k = None ->
        participationData st' !! k = None).
Proof.
  unfold periodicUpdate. destruct connected; cbn [negb].
  - intros E k.
    destruct (cleanOldMessages_lookup now (refreshAll tr st)
                (cleanOldMessages_returned now _ _ E)) as (st'' & E' & L).
    rewrite E in E'. inversion E'; subst st''. clear E'.
    destruct (L k) as [D1 D2]. destruct (refreshAll_lookup tr st k) as [R1 R2].
    rewrite R1 in D1, D2.
    destruct (messageBossData st !! k) as [b0|] eqn:K.
    + destruct (unfetchable tr k st).
      * rewrite D1, D2, R2. split; [|split]; intros; congruence.
      * destruct (old b0 now).
        -- rewrite D1, D2. split; [|split]; intros; congruence.
        -- rewrite D1, D2, R2. split; [|split]; intros; congruence.
    + rewrite D1, D2, R2. split; [|split]; intros; try congruence.
      destruct H as [? H]. discriminate.
  - intros [= <-] k. split; [|split]; intros; try assumption.
    destruct H as [b Hb]. congruence.
Qed.

(** X3.  Cleaning up twice at the same clock is cleaning up once. *)
Theorem cleanOldMessages_idempotent (now : Z) (st st' : Store) :
  cleanOldMessages now st = Returned st' ->
  cleanOldMessages now st' = Returned st'.
Proof.
  intros E.
  destruct (cleanOldMessages_lookup now st (cleanOldMessages_returned now _ _ E))
    as (st1 & E1 & L). rewrite E in E1. inversion E1; subst st1. clear E1.
  assert (Hc : computable now st').
  { intros k b Hk. destruct (L k) as [D1 _]. rewrite Hk in D1.
    apply (cleanOldMessages_returned now _ _ E k b).
    destruct (messageBossData st !! k) as [b0|]; [|discriminate].
    destruct (old b0 now); congruence. }
  destruct (cleanOldMessages_lookup now st' Hc) as (st2 & E2 & L2).
  rewrite E2. f_equal. apply store_eq; intros k;
    destruct (L2 k) as [D1 D2]; destruct (L k) as [C1 C2].
  - rewrite D2. destruct (messageBossData st' !! k) as [b|] eqn:K; [|reflexivity].
    rewrite C1 in K. destruct (messageBossData st !! k) as [b0|]; [|discriminate].
    destruct (old b0 now) eqn:O; [discriminate|].
    assert (b0 = b) by congruence. subst b0. now rewrite O.
  - rewrite D1. destruct (messageBossData st' !! k) as [b|] eqn:K; [|reflexivity].
    rewrite C1 in K. destruct (messageBossData st !! k) as [b0|]; [|discriminate].
    destruct (old b0 now) eqn:O; [discriminate|].
    assert (b0 = b) by congruence. subst b0. now rewrite O.
Qed.

(** X4.  A snapshot that is old at some clock is old at every later
    clock: a message due for removal stays due until a run removes it. *)
Theorem old_stays_old (b : BossData) (now now' : Z) :
  0 <= now ->
  now <= now' ->
  now' <= maxTime ->
  old b now = true ->
  old b now' = true.
Proof.
  intros H0 Hle Hmax Ho.
  apply old_spec in Ho as (t & E & Hlt); [|lia].
  apply old_spec; [lia|]. exists t. split; [|lia].
  destruct (future_respawn_time b now) eqn:F.
  - apply future_respawn_time_result in F as (t' & E' & Hgt).
    rewrite E in E'. inversion E'; subst. unfold oneDay in Hlt. lia.
  - rewrite (calculateRespawnTime_not_future b now now'); auto.
    eapply future_respawn_time_later; eauto.
Qed.

(** X5.  The first loop of the update leaves both maps as they are when
    the channel cannot be fetched, and when every message is found. *)
Theorem refreshAll_unchanged (tr : Transport) (st : Store) :
  channel_found tr = false \/ (forall k, message_found tr k = true) ->
  refreshAll tr st = st.
Proof.
  intros H.
  assert (U : forall k, unfetchable tr k st = false).
  { intros k. unfold unfetchable. destruct (participationData st !! k); [|reflexivity].
    destruct H as [-> | H]; [reflexivity|]. rewrite H. apply andb_false_r. }
  apply store_eq; intros k; destruct (refreshAll_lookup tr st k) as [R1 R2].
  - rewrite R2, U. now destruct (messageBossData st !! k).
  - rewrite R1, U. now destruct (messageBossData st !! k).
Qed.

(** X6.  [calculateRespawnTime] throws exactly when the respawn time is not
    in the future, the time of death and the hours are present, the time of
    death parses, and the hours are no number or the sum lies outside the
    valid times. *)
Theorem calculateRespawnTime_throws_iff (boss : BossData) (now : Z) :
  calculateRespawnTime boss now = RangeError <->
  future_respawn_time boss now = false
  /\ truthy (time_of_death boss) = true
  /\ truthy (respawn_hours boss) = true
  /\ exists td, getTime (new_Date (time_of_death boss)) = Some td
       /\ (ToNumber (respawn_hours boss) = NaN
           \/ exists h, ToNumber (respawn_hours boss) = Some h
                /\ maxTime < Z.abs (td + h * 3600000)).
Proof.
  rewrite calculateRespawnTime_throws. unfold death_and_hours.
  destruct (future_respawn_time boss now);
    [split; intros [? _]; discriminate|].
  destruct (truthy (time_of_death boss));
    [|split; [intros (_ & ? & _) | intros (_ & ? & _)]; discriminate].
  destruct (truthy (respawn_hours boss));
    [|split; [intros (_ & ? & _) | intros (_ & _ & ? & _)]; discriminate].
  destruct (getTime (new_Date (time_of_death boss))) as [td|];
    [|split; [intros (_ & ? & _); discriminate | intros (_ & _ & _ & td & ? & _); discriminate]].
  destruct (ToNumber (respawn_hours boss)) as [h|]; cbn [andb negb isNaN num_add num_mul].
  - replace (td + h * 60 * 60 * 1000) with (td + h * 3600000) by lia.
    unfold TimeClip. destruct (Z.leb_spec (Z.abs (td + h * 3600000)) maxTime).
    + split; [intros (_ & _ & ?); discriminate|].
      intros (_ & _ & _ & td' & [= <-] & [? | (h' & [= <-] & ?)]); [discriminate | lia].
    + split; [|auto]. intros _. repeat split; auto.
      exists td. split; [reflexivity|]. right. exists h. split; [reflexivity | lia].
  - split; [|auto]. intros _. repeat split; auto.
    exists td. split; [reflexivity|]. now left.
Qed.

(* ------------------------------------------------------------------ *)
(** ** The clean-up loop in the order of its entries *)
(* ------------------------------------------------------------------ *)

(** The loop ends in one of two ways: at its end, and no respawn time of an
    entry throws; or by the exception of an entry. *)
Lemma cleanOldEntries_cases (now : Z) (entries : list (string * BossData)) (s : Store) :
  (exists s', cleanOldEntries now entries s = Completed s'
     /\ forall k b, (k, b) ∈ entries -> calculateRespawnTime b now <> RangeError)
  \/ (exists s' k b, cleanOldEntries now entries s = Uncaught s'
        /\ (k, b) ∈ entries /\ calculateRespawnTime b now = RangeError).
Proof.
  revert s. induction entries as [|[k0 b0] rest IH]; intros s.
  - left. exists s. split; [reflexivity|]. intros k b Hin. now apply elem_of_nil in Hin.
  - cbn [cleanOldEntries].
    destruct (calculateRespawnTime b0 now) as [r|] eqn:C.
    + assert (Hc : calculateRespawnTime b0 now <> RangeError) by (rewrite C; discriminate).
      rewrite (isOld_returns b0 now Hc).
      destruct (IH (if old b0 now then evict k0 s else s))
        as [(s' & E & Hall) | (s' & k & b & E & Hin & Ht)].
      * left. exists s'. split; [now destruct (old b0 now)|].
        intros k b Hin. apply elem_of_cons in Hin as [[= -> ->] | Hin]; [exact Hc|].
        now apply (Hall k).
      * right. exists s', k, b. split; [now destruct (old b0 now)|].
        split; [now apply elem_of_cons; right | exact Ht].
    + right. exists s, k0, b0.
      split; [unfold isOld; now rewrite C|].
      split; [apply elem_of_cons; now left | exact C].
Qed.

(** What a loop that reaches its end did to a key. *)
Lemma cleanOldEntries_completed (now : Z) (entries : list (string * BossData)) :
  NoDup entries.*1 ->
  forall s s',
    cleanOldEntries now entries s = Completed s' ->
    forall k,
      (forall b, (k, b) ∈ entries -> old b now = true ->
         participationData s' !! k = None /\ messageBossData s' !! k = None)
      /\ ((forall b, (k, b) ∈ entries -> old b now = false) ->
          participationData s' !! k = participationData s !! k
          /\ messageBossData s' !! k = messageBossData s !! k).
Proof.
  induction entries as [|[k0 b0] rest IH]; intros Hnd s s' E k.
  - cbn in E. inversion E; subst s'. split; [|auto].
    intros b Hin. now apply elem_of_nil in Hin.
  - cbn [fmap list_fmap fst] in Hnd. apply NoDup_cons in Hnd as [Hk0 Hnd].
    cbn [cleanOldEntries] in E.
    destruct (isOld b0 now) as [o|] eqn:O; [|discriminate].
    assert (Ho : old b0 now = o) by (unfold old; rewrite O; now destruct o).
    destruct (IH Hnd (if o then evict k0 s else s) s'
                ltac:(now destruct o) k) as [I1 I2].
    split.
    + intros b Hin Hb. apply elem_of_cons in Hin as [[= -> ->] | Hin]; [|now apply (I1 b)].
      rewrite Hb in Ho. subst o.
      destruct I2 as [P1 P2].
      { intros b' Hin'. exfalso. apply Hk0. apply list_elem_of_fmap. now exists (k0, b'). }
      destruct (evict_lookup_eq k0 s) as [V1 V2]. now rewrite P1, P2.
    + intros Hall.
      assert (Ho0 : k = k0 -> o = false).
      { intros ->. rewrite <- Ho. apply Hall. apply elem_of_cons. now left. }
      destruct I2 as [P1 P2].
      { intros b' Hin'. apply Hall. apply elem_of_cons. now right. }
      destruct o; [|now split].
      destruct (decide (k = k0)) as [Heq|Hne]; [now apply Ho0 in Heq|].
      destruct (evict_lookup_ne k0 k s) as [V1 V2]; [congruence|].
      now rewrite P1, P2.
Qed.

(** The loop without the order is the loop in any order of the entries:
    they end alike, and at the end with the same maps. *)
Lemma cleanOldEntries_agrees (now : Z) (st : Store) (entries : list (string * BossData)) :
  NoDup entries.*1 ->
  (forall k b, (k, b) ∈ entries <-> messageBossData st !! k = Some b) ->
  (forall st', cleanOldEntries now entries st = Completed st'
               <-> cleanOldMessages now st = Returned st')
  /\ ((exists st', cleanOldEntries now entries st = Uncaught st')
      <-> cleanOldMessages now st = RangeError).
Proof.
  intros Hnd Hin.
  destruct (cleanOldEntries_cases now entries st)
    as [(s' & E & Hall) | (s' & k & b & E & Hk & Ht)].
  - assert (Hc : computable now st).
    { intros k b Hk. apply (Hall k). now apply Hin. }
    destruct (cleanOldMessages_lookup now st Hc) as (st1 & E1 & L).
    assert (Heq : s' = st1).
    { apply store_eq; intros k;
        destruct (cleanOldEntries_completed now entries Hnd st s' E k) as [C1 C2];
        destruct (L k) as [L1 L2];
        [rewrite L2 | rewrite L1];
        (destruct (messageBossData st !! k) as [b|] eqn:K;
         [destruct (old b now) eqn:O;
          [destruct (C1 b) as [P1 P2]; [now apply Hin | exact O |]; congruence
          |destruct C2 as [P1 P2];
           [intros b' Hb'; apply Hin in Hb'; congruence|]; congruence]
         |destruct C2 as [P1 P2];
          [intros b' Hb'; apply Hin in Hb'; congruence|]; congruence]). }
    subst st1. rewrite E, E1. split.
    + intros st'. split; intros [= <-]; reflexivity.
    + split; [intros [st' [=]] | discriminate].
  - assert (E1 : cleanOldMessages now st = RangeError).
    { apply (cleanOldMessages_throws now st k b); [now apply Hin | exact Ht]. }
    rewrite E, E1. split.
    + intros st'. split; discriminate.
    + split; [reflexivity | intros _; now exists s'].
Qed.

(** C7.  The clean-up loop has no handler.  When the respawn time of a
    tracked snapshot throws (its time of death parses and its hours are no
    number or lead outside the valid times), the loop ends at that entry by
    the exception: the entries after it in the order of the map are not
    visited, so that an entry there stays in both maps however long ago its
    respawn instant was.  Every run of the update on a connected bot ends so
    as long as the message of the snapshot is found. *)
Theorem uncaught_exception_ends_cleanup (now : Z) (st : Store)
    (before after : list (string * BossData)) (messageId : string) (bossData : BossData) :
  calculateRespawnTime bossData now = RangeError ->
  (exists st',
      cleanOldEntries now (before ++ (messageId, bossData) :: after) st = Uncaught st'
      /\ forall k, k ∉ before.*1 ->
           participationData st' !! k = participationData st !! k
           /\ messageBossData st' !! k = messageBossData st !! k)
  /\ (forall tr,
        messageBossData st !! messageId = Some bossData ->
        unfetchable tr messageId st = false ->
        periodicUpdate true tr now st = RangeError).
Proof.
  intros Ht. split.
  - revert st. induction before as [|[k0 b0] rest IH]; intros st.
    + exists st. cbn [app cleanOldEntries]. unfold isOld. rewrite Ht. now split.
    + cbn [app cleanOldEntries].
      destruct (isOld b0 now) as [[|]|].
      * destruct (IH (evict k0 st)) as (st' & E & F). exists st'. split; [exact E|].
        intros k Hk. cbn [fmap list_fmap fst] in Hk.
        apply not_elem_of_cons in Hk as [Hne Hk].
        destruct (F k Hk) as [F1 F2].
        destruct (evict_lookup_ne k0 k st) as [V1 V2]; [congruence|].
        now rewrite F1, F2.
      * destruct (IH st) as (st' & E & F). exists st'. split; [exact E|].
        intros k Hk. cbn [fmap list_fmap fst] in Hk.
        apply not_elem_of_cons in Hk as [_ Hk]. now apply F.
      * exists st. now split.
  - intros tr Hk Hf. unfold periodicUpdate. cbn [negb].
    apply (cleanOldMessages_throws now _ messageId bossData); [|exact Ht].
    destruct (refreshAll_lookup tr st messageId) as [R _].
    now rewrite R, Hk, Hf.
Qed.

(** A run leaves every message untouched in both maps or absent from
    both. *)
Lemma periodicUpdate_entry (connected : bool) (tr : Transport) (now : Z) (st st' : Store) :
  periodicUpdate connected tr now st = Returned st' ->
  forall k,
    (participationData st' !! k = participationData st !! k
     /\ messageBossData st' !! k = messageBossData st !! k)
    \/ (participationData st' !! k = None /\ messageBossData st' !! k = None).
Proof.
  unfold periodicUpdate. destruct connected; cbn [negb].
  - intros E k.
    destruct (cleanOldMessages_lookup now (refreshAll tr st)
                (cleanOldMessages_returned now _ _ E)) as (st'' & E' & L).
    rewrite E in E'. inversion E'; subst st''. clear E'.
    destruct (L k) as [D1 D2]. destruct (refreshAll_lookup tr st k) as [R1 R2].
    rewrite R1 in D1, D2.
    destruct (messageBossData st !! k) as [b0|] eqn:K.
    + destruct (unfetchable tr k st).
      * right. rewrite D1, D2, R2. auto.
      * destruct (old b0 now).
        -- right. rewrite D1, D2. auto.
        -- left. rewrite D1, D2, R2. auto.
    + left. rewrite D1, D2, R2. auto.
  - intros [= <-] k. left. auto.
Qed.

(* ================================================================== *)
(** * More on the route *)
(* ================================================================== *)

(** X7.  The route answers with success only when the bot is connected, the
    caller is an admin, the payload names a monster, the channel was found,
    the respawn time it computes is [null] or valid, and the message was
    posted; the message is then registered under its id.  Every failure is a
    status 503, 403, 400, 404 or 500 and leaves both maps as they were.  The
    snapshot the route stores computes the respawn time of the payload. *)
Theorem send_boss_outcomes (connected : bool) (isAdmin : Value) (bossData : BossData)
    (channel : Fetched) (posted : option string) (now : Z) (st : Store) :
  (forall messageId st',
      send_boss connected isAdmin bossData channel posted now st = (Success messageId, st') ->
      connected = true /\ truthy isAdmin = true /\ truthy (monster bossData) = true
      /\ channel = Found /\ posted = Some messageId
      /\ (calculateRespawnTime (processedBossData bossData) now = Returned None
          \/ exists t, calculateRespawnTime (processedBossData bossData) now
                       = Returned (Some (mkDate (Some t))))
      /\ st' = register messageId (processedBossData bossData) st)
  /\ (forall status st',
        send_boss connected isAdmin bossData channel posted now st = (Failure status, st') ->
        st' = st /\ In status [503; 403; 400; 404; 500])
  /\ (forall now', calculateRespawnTime (processedBossData bossData) now'
                   = calculateRespawnTime bossData now').
Proof.
  unfold send_boss.
  split; [|split; [|reflexivity]].
  - intros messageId st'.
    destruct connected; cbn [negb]; [|discriminate].
    destruct (truthy isAdmin); cbn [negb]; [|discriminate].
    destruct (truthy (monster bossData)); cbn [negb]; [|discriminate].
    destruct channel; try discriminate.
    destruct (calculateRespawnTime (processedBossData bossData) now) as [[[[t|]]|]|];
      cbn [getTime isNaN]; try discriminate;
      (destruct posted as [id|]; [|discriminate]); intros [= <- <-];
      repeat split; eauto.
  - intros status st'.
    destruct connected; cbn [negb]; [|intros [= <- <-]; simpl; auto].
    destruct (truthy isAdmin); cbn [negb]; [|intros [= <- <-]; simpl; auto].
    destruct (truthy (monster bossData)); cbn [negb]; [|intros [= <- <-]; simpl; auto 6].
    destruct channel; try (intros [= <- <-]; simpl; auto 8).
    destruct (calculateRespawnTime (processedBossData bossData) now) as [[[[t|]]|]|];
      cbn [getTime isNaN]; try (intros [= <- <-]; simpl; auto 8);
      (destruct posted as [id|]; [discriminate|]); intros [= <- <-]; simpl; auto 8.
Qed.

(* ================================================================== *)
(** * More on the countdown *)
(* ================================================================== *)

Lemma countdown_unit (d : Z) :
  exists s c, countdown d = s +:+ String c EmptyString
              /\ (c = "h" \/ c = "m" \/ c = "s")%char.
Proof.
  unfold countdown.
  repeat match goal with |- context [if ?b then _ else _] => destruct b end.
  - exists (pretty (d / 1000 / 60 / 60 / 24) +:+ "d " +:+ pretty ((d / 1000 / 60 / 60) mod 24)), "h"%char.
    split; [|auto]. now rewrite !append_assoc_r.
  - exists (pretty (d / 1000 / 60 / 60) +:+ "h " +:+ pretty ((d / 1000 / 60) mod 60)), "m"%char.
    split; [|auto]. now rewrite !append_assoc_r.
  - exists (pretty (d / 1000 / 60)), "m"%char. split; [reflexivity | auto].
  - exists (pretty (d / 1000)), "s"%char. split; [reflexivity | auto].
Qed.

Lemma countdown_not_unknown (d : Z) : countdown d <> "Unknown".
Proof.
  destruct (countdown_unit d) as (s & c & E & Hc).
  intros H. rewrite E in H.
  pose proof (last_char_append s c) as L. rewrite H in L. simpl in L.
  destruct Hc as [-> | [-> | ->]]; discriminate.
Qed.

(** X8.  A countdown has one of four shapes, with every number in its
    range: days (1 or more) and hours (0 to 23); hours (1 to 23) and minutes
    (0 to 59); minutes alone (1 to 59); seconds alone (0 to 59). *)
Theorem countdown_ranges (delta : Z) :
  0 < delta ->
  exists a b,
    (countdown delta = pretty a +:+ "d " +:+ pretty b +:+ "h" /\ 1 <= a /\ 0 <= b < 24)
    \/ (countdown delta = pretty a +:+ "h " +:+ pretty b +:+ "m"
        /\ 1 <= a < 24 /\ 0 <= b < 60)
    \/ (countdown delta = pretty a +:+ "m" /\ 1 <= a < 60)
    \/ (countdown delta = pretty a +:+ "s" /\ 0 <= a < 60).
Proof.
  intros Hpos. destruct (countdown_units delta Hpos) as (D & H & M & S).
  destruct (Z_lt_le_dec delta 60000) as [Hs|Hs].
  { exists (delta / 1000), 0. right; right; right. split; [now apply S|].
    Z.to_euclidean_division_equations; lia. }
  destruct (Z_lt_le_dec delta 3600000) as [Hm|Hm].
  { exists (delta / 60000), 0. right; right; left. split; [apply M; lia|].
    Z.to_euclidean_division_equations; lia. }
  destruct (Z_lt_le_dec delta 86400000) as [Hh|Hh].
  { exists (delta / 3600000), ((delta / 60000) mod 60). right; left.
    split; [apply H; lia|]. Z.to_euclidean_division_equations; lia. }
  exists (delta / 86400000), ((delta / 3600000) mod 24). left.
  split; [now apply D|]. Z.to_euclidean_division_equations; lia.
Qed.

(* ================================================================== *)
(** * The policy of the test script against the one of the server *)
(* ================================================================== *)

(** X9.  The policy of the test script never returns an Invalid Date: its
    result is [null] or a valid time (or the RangeError of its log line). *)
Theorem script_result_is_valid (boss : BossData) (d : Date) :
  script_calculateRespawnTime boss = Returned (Some d) ->
  exists t, getTime d = Some t.
Proof.
  unfold script_calculateRespawnTime. cbv zeta.
  destruct (truthy (respawn_time boss)
            && negb (isNaN (getTime (new_Date (respawn_time boss))))) eqn:A.
  - intros [= <-]. apply andb_prop in A as [_ A].
    destruct (getTime (new_Date (respawn_time boss))) as [t|]; [eauto | discriminate].
  - destruct (truthy (time_of_death boss) && truthy (respawn_hours boss)
              && negb (isNaN (getTime (new_Date (time_of_death boss)))));
      [|discriminate].
    destruct (getTime (Date_of_num _)) as [t|] eqn:G; cbn [isNaN]; [|discriminate].
    intros [= <-]. eauto.
Qed.

(** X10.  The two policies agree on a snapshot whose respawn time is missing
    (falsy) and on one whose respawn time is in the future. *)
Theorem script_agrees_with_server (boss : BossData) (now : Z) :
  truthy (respawn_time boss) = false \/ future_respawn_time boss now = true ->
  script_calculateRespawnTime boss = calculateRespawnTime boss now.
Proof.
  unfold script_calculateRespawnTime, calculateRespawnTime, future_respawn_time.
  intros [H | H].
  - rewrite H. reflexivity.
  - rewrite H. apply andb_prop in H as [-> H]. apply andb_prop in H as [-> _].
    reflexivity.
Qed.

(** X11.  On a snapshot for which both policies compute the same valid
    respawn time, with at least one hour and less than one day left, the
    countdown of the test script is the countdown of the server. *)
Theorem script_countdown_agrees (boss : BossData) (now t : Z) :
  script_calculateRespawnTime boss = Returned (Some (mkDate (Some t))) ->
  calculateRespawnTime boss now = Returned (Some (mkDate (Some t))) ->
  3600000 <= t - now < 86400000 ->
  script_formatRespawnTime boss now = formatRespawnTime boss now.
Proof.
  intros Es Ec Hr.
  unfold script_formatRespawnTime, formatRespawnTime, formatRespawnTime_at.
  rewrite Es, Ec. cbn [getTime].
  destruct (Z.leb_spec (t - now) 0); [lia|].
  destruct (countdown_units (t - now)) as (_ & Hh & _); [lia|].
  rewrite (Hh Hr).
  change (1000 * 60 * 60) with 3600000. change (1000 * 60) with 60000.
  replace (((t - now) mod 3600000) / 60000) with (((t - now) / 60000) mod 60)
    by (Z.to_euclidean_division_equations; lia).
  reflexivity.
Qed.

(* ================================================================== *)
(** * Properties of the embeds *)
(* ================================================================== *)

Section EmbedProperties.

Variable Date_toLocaleString : Z -> string.

Ltac names :=
  repeat match goal with
         | |- context [String.eqb ?a ?b] =>
             let r := eval vm_compute in (String.eqb a b) in
             change (String.eqb a b) with r
         end;
  cbv beta iota.

Lemma find_field_name (X : string) (fs : list Field) (f : Field) :
  find_field X fs = Some f -> field_name f = X.
Proof.
  unfold find_field. intros H. apply List.find_some in H as [_ H].
  now apply String.eqb_eq in H.
Qed.

Lemma find_field_app (X : string) (l1 l2 : list Field) :
  find_field X (l1 ++ l2) =
    match find_field X l1 with
    | Some f => Some f
    | None => find_field X l2
    end.
Proof.
  unfold find_field. induction l1 as [|f l1 IH]; [reflexivity|].
  cbn [List.find app]. destruct (String.eqb (field_name f) X); [reflexivity | exact IH].
Qed.

Lemma find_field_cons (X Y : string) (v : Value) (i : bool) (l : list Field) :
  find_field X (mkField Y v i :: l) =
    if String.eqb Y X then Some (mkField Y v i) else find_field X l.
Proof. reflexivity. Qed.

Lemma find_field_copied (X Y : string) (fs : list Field) :
  find_field X (copied (find_field Y fs)) =
    if String.eqb Y X
    then (fun f => mkField Y (field_value f) (field_inline f)) <$> find_field Y fs
    else None.
Proof.
  destruct (find_field Y fs) as [f|] eqn:E; cbn [copied fmap option_fmap option_map].
  - rewrite (find_field_name Y fs f E), orb_false_r, find_field_cons.
    now destruct (String.eqb Y X).
  - now destruct (String.eqb Y X).
Qed.

Lemma copied_names (X : string) (fs : list Field) :
  map field_name (copied (find_field X fs)) =
    match find_field X fs with
    | Some _ => [X]
    | None => []
    end.
Proof.
  destruct (find_field X fs) as [f|] eqn:E; [|reflexivity].
  cbn [copied map field_name]. now rewrite (find_field_name X fs f E).
Qed.

Lemma copied_fmap (X : string) (fs : list Field) :
  copied ((fun f => mkField X (field_value f) (field_inline f)) <$> find_field X fs)
  = copied (find_field X fs).
Proof.
  destruct (find_field X fs) as [f|] eqn:E; [|reflexivity].
  cbn [copied fmap option_fmap option_map field_name field_value field_inline].
  now rewrite (find_field_name X fs f E), !orb_false_r.
Qed.

Lemma js_or_idem (a b : Value) : js_or (js_or a b) b = js_or a b.
Proof.
  unfold js_or. destruct (truthy a) eqn:E; [now rewrite E|].
  now destruct (truthy b).
Qed.

Lemma short_fields (fs : list Field) : (2 <=? length fs)%nat = false <-> (length fs < 2)%nat.
Proof. apply Nat.leb_gt. Qed.

(** The computation of the time text throws when the one of the respawn
    time does, and only then. *)
Lemma timeValue_throws (boss : BossData) (now : Z) :
  timeValue Date_toLocaleString boss now = RangeError <->
  calculateRespawnTime boss now = RangeError.
Proof.
  unfold timeValue, formatDiscordDate, formatRespawnTime, formatRespawnTime_at.
  destruct (calculateRespawnTime boss now) as [[[[t|]]|]|]; cbn [getTime].
  - destruct (t - now <=? 0); destruct (String.eqb _ _); split; discriminate.
  - split; discriminate.
  - split; discriminate.
  - split; reflexivity.
Qed.

(** The fields of a redraw of an embed with two fields or more. *)
Lemma updatedFields_long (fs : list Field) (stored : option BossData)
    (data : Participation) (pu npu : list string) (now : Z) (fs' : list Field) :
  (2 <= length fs)%nat ->
  updatedFields Date_toLocaleString fs stored data pu npu now = Returned fs' ->
  exists v,
    fs' = (copied (find_field boss_name_field fs)
           ++ [mkField respawn_time_field v true]
           ++ copied (find_field points_field fs)
           ++ copied (find_field notes_field fs)
           ++ [ mkField participation_field
                  (Str (participationValue (participatingCount (participationStats data))
                          (notParticipatingCount (participationStats data)) pu npu)) false;
                mkField stats_field (Str (quickStats data)) false ])%list
    /\ match stored with
       | Some b => exists text, timeValue Date_toLocaleString b now = Returned text
                                /\ v = Str text
       | None => v = js_or (match find_field respawn_time_field fs with
                            | Some f => field_value f
                            | None => Undefined
                            end) (Str "Unknown")
       end.
Proof.
  intros Hlen. unfold updatedFields.
  apply Nat.leb_le in Hlen. rewrite Hlen.
  destruct stored as [b|].
  - destruct (timeValue Date_toLocaleString b now) as [text|]; [|discriminate].
    intros [= <-]. eexists. split; [reflexivity|]. eauto.
  - intros [= <-]. eexists. split; reflexivity.
Qed.

(** What [find] gives on the fields of a redraw. *)
Lemma redrawn_find (fs : list Field) (v pv sv : Value) :
  let fs' := (copied (find_field boss_name_field fs)
              ++ [mkField respawn_time_field v true]
              ++ copied (find_field points_field fs)
              ++ copied (find_field notes_field fs)
              ++ [ mkField participation_field pv false;
                   mkField stats_field sv false ])%list in
  find_field boss_name_field fs'
  = (fun f => mkField boss_name_field (field_value f) (field_inline f))
      <$> find_field boss_name_field fs
  /\ find_field respawn_time_field fs' = Some (mkField respawn_time_field v true)
  /\ find_field points_field fs'
     = (fun f => mkField points_field (field_value f) (field_inline f))
         <$> find_field points_field fs
  /\ find_field notes_field fs'
     = (fun f => mkField notes_field (field_value f) (field_inline f))
         <$> find_field notes_field fs.
Proof.
  cbv zeta. repeat split.
  - rewrite !find_field_app, !find_field_copied, !find_field_cons. names.
    now destruct (find_field boss_name_field fs).
  - rewrite !find_field_app, !find_field_copied, !find_field_cons. names.
    reflexivity.
  - rewrite !find_field_app, !find_field_copied, !find_field_cons. names.
    now destruct (find_field points_field fs).
  - rewrite !find_field_app, !find_field_copied, !find_field_cons. names.
    now destruct (find_field notes_field fs).
Qed.

(** X12.  [formatDiscordDate] returns [null] exactly when [formatRespawnTime]
    answers ["Unknown"], and throws exactly when it throws: the respawn time
    field has a date line whenever it has a countdown or says that the boss
    is available. *)
Theorem formatDiscordDate_null_iff_unknown (boss : BossData) (now : Z) :
  (formatDiscordDate Date_toLocaleString boss now = Returned None <->
   formatRespawnTime boss now = Returned "Unknown")
  /\ (formatDiscordDate Date_toLocaleString boss now = RangeError <->
      formatRespawnTime boss now = RangeError).
Proof.
  unfold formatDiscordDate, formatRespawnTime, formatRespawnTime_at.
  destruct (calculateRespawnTime boss now) as [[[[t|]]|]|]; cbn [getTime].
  - destruct (t - now <=? 0).
    + repeat split; discriminate.
    + repeat split; try discriminate.
      intros [= H]. now apply countdown_not_unknown in H.
  - repeat split; discriminate.
  - repeat split; discriminate.
  - repeat split; discriminate.
Qed.

(** X13.  The fields of a redrawn embed: at most the fields named Boss Name,
    Respawn Time, Points and Notes, once each and in this order, then the
    participation field and the statistics field.  No other field of the
    old embed is kept, and its participation and statistics fields are
    replaced.  With two old fields or more there is a respawn time field;
    with fewer, the two new fields are all there is. *)
Theorem updatedFields_layout (fs : list Field) (stored : option BossData)
    (data : Participation) (pu npu : list string) (now : Z) (fs' : list Field) :
  updatedFields Date_toLocaleString fs stored data pu npu now = Returned fs' ->
  exists kept,
    map field_name fs' = (kept ++ [participation_field; stats_field])%list
    /\ sublist kept [boss_name_field; respawn_time_field; points_field; notes_field]
    /\ ((2 <= length fs)%nat -> In respawn_time_field kept)
    /\ ((length fs < 2)%nat -> kept = []).
Proof.
  intros E. destruct (le_lt_dec 2 (length fs)) as [Hlen|Hlen].
  - destruct (updatedFields_long fs stored data pu npu now fs' Hlen E) as (v & -> & _).
    exists (match find_field boss_name_field fs with Some _ => [boss_name_field] | None => [] end
            ++ [respawn_time_field]
            ++ match find_field points_field fs with Some _ => [points_field] | None => [] end
            ++ match find_field notes_field fs with Some _ => [notes_field] | None => [] end)%list.
    split; [|split; [|split]].
    + rewrite !map_app, !copied_names. cbn [map field_name]. now rewrite <- !app_assoc.
    + destruct (find_field boss_name_field fs), (find_field points_field fs),
        (find_field notes_field fs); cbn [app];
        repeat first [apply sublist_nil | apply sublist_skip | apply sublist_cons].
    + intros _. apply in_or_app. right. now left.
    + intros H. lia.
  - exists []. unfold updatedFields in E.
    apply short_fields in Hlen as Hs. rewrite Hs in E. inversion E; subst fs'.
    split; [reflexivity|]. split; [apply sublist_nil_l|]. split; [intros; lia | reflexivity].
Qed.

(** X14.  A redraw of an embed with two fields or more keeps the first
    field named Boss Name, the first named Points and the first named
    Notes, with their values; it adds none of them when the old embed has
    none. *)
Theorem updatedFields_keeps_values (fs : list Field) (stored : option BossData)
    (data : Participation) (pu npu : list string) (now : Z) (fs' : list Field) (X : string) :
  (2 <= length fs)%nat ->
  updatedFields Date_toLocaleString fs stored data pu npu now = Returned fs' ->
  X = boss_name_field \/ X = points_field \/ X = notes_field ->
  find_field X fs' =
    (fun f => mkField X (field_value f) (field_inline f)) <$> find_field X fs.
Proof.
  intros Hlen E HX.
  destruct (updatedFields_long fs stored data pu npu now fs' Hlen E) as (v & -> & _).
  destruct (redrawn_find fs v
              (Str (participationValue (participatingCount (participationStats data))
                      (notParticipatingCount (participationStats data)) pu npu))
              (Str (quickStats data))) as (Hb & _ & Hp & Hn).
  destruct HX as [-> | [-> | ->]]; assumption.
Qed.

(** X15.  A redraw of an embed with two fields or more is stable: with the
    same snapshot, participation data, names and clock, a redraw of its
    result has the same fields. *)
Theorem updatedFields_stable (fs : list Field) (stored : option BossData)
    (data : Participation) (pu npu : list string) (now : Z) (fs' : list Field) :
  (2 <= length fs)%nat ->
  updatedFields Date_toLocaleString fs stored data pu npu now = Returned fs' ->
  updatedFields Date_toLocaleString fs' stored data pu npu now = Returned fs'.
Proof.
  intros Hlen E.
  destruct (updatedFields_long fs stored data pu npu now fs' Hlen E) as (v & -> & Hv).
  destruct (redrawn_find fs v
              (Str (participationValue (participatingCount (participationStats data))
                      (notParticipatingCount (participationStats data)) pu npu))
              (Str (quickStats data))) as (Hb & Hr & Hp & Hn).
  cbv zeta in Hb, Hr, Hp, Hn.
  unfold updatedFields at 1. cbv zeta.
  rewrite Hb, Hr, Hp, Hn, !copied_fmap.
  match goal with
  | |- context [(2 <=? length ?l)%nat] =>
      replace (2 <=? length l)%nat with true
  end.
  2:{ symmetry. apply Nat.leb_le. rewrite !length_app. cbn [length]. lia. }
  destruct stored as [b|].
  - destruct Hv as (text & Ht & ->). now rewrite Ht.
  - cbn [field_value]. subst v. now rewrite js_or_idem.
Qed.

(** X16.  An embed with fewer than two fields gets the two participation
    fields and nothing else from a redraw, whatever field it had; a redraw
    of the result then adds a respawn time field in front of them.  On such
    embeds a redraw is not stable. *)
Theorem short_embed_redraw (fs : list Field) (stored : option BossData)
    (data : Participation) (pu npu : list string) (now : Z) :
  (length fs < 2)%nat ->
  exists fs1,
    updatedFields Date_toLocaleString fs stored data pu npu now = Returned fs1
    /\ map field_name fs1 = [participation_field; stats_field]
    /\ forall fs2,
         updatedFields Date_toLocaleString fs1 stored data pu npu now = Returned fs2 ->
         map field_name fs2 = [respawn_time_field; participation_field; stats_field].
Proof.
  intros Hlen. apply short_fields in Hlen.
  unfold updatedFields at 1. cbv zeta. rewrite Hlen.
  eexists. split; [reflexivity|]. split; [reflexivity|].
  intros fs2 E.
  apply updatedFields_long in E as (v & -> & _); [|cbn [length]; lia].
  rewrite !find_field_cons. names.
  reflexivity.
Qed.

(** X17.  The respawn time field of a redraw of an embed with two fields or
    more.  With a stored snapshot its value is computed from the snapshot
    at the clock of the redraw, whatever the old embed showed.  Without one
    it is the value of the old respawn time field, or ["Unknown"] when the
    old embed has none or one with a falsy value. *)
Theorem updatedFields_respawn_time (fs : list Field) (stored : option BossData)
    (data : Participation) (pu npu : list string) (now : Z) (fs' : list Field) :
  (2 <= length fs)%nat ->
  updatedFields Date_toLocaleString fs stored data pu npu now = Returned fs' ->
  exists v,
    find_field respawn_time_field fs' = Some (mkField respawn_time_field v true)
    /\ (forall b, stored = Some b ->
          exists text, timeValue Date_toLocaleString b now = Returned text /\ v = Str text)
    /\ (stored = None ->
          truthy v = true
          /\ forall f, find_field respawn_time_field fs = Some f ->
                       truthy (field_value f) = true -> v = field_value f)
    /\ (stored = None ->
          (forall f, find_field respawn_time_field fs = Some f ->
                     truthy (field_value f) = false) ->
          v = Str "Unknown").
Proof.
  intros Hlen E.
  destruct (updatedFields_long fs stored data pu npu now fs' Hlen E) as (v & -> & Hv).
  destruct (redrawn_find fs v
              (Str (participationValue (participatingCount (participationStats data))
                      (notParticipatingCount (participationStats data)) pu npu))
              (Str (quickStats data))) as (_ & Hr & _).
  exists v. split; [exact Hr|]. split; [|split].
  - intros b ->. exact Hv.
  - intros ->. subst v. unfold js_or. split.
    + destruct (find_field respawn_time_field fs) as [f|]; [|reflexivity].
      now destruct (truthy (field_value f)) eqn:T.
    + intros f Hf T. now rewrite Hf, T.
  - intros -> H. subst v. unfold js_or.
    destruct (find_field respawn_time_field fs) as [f|]; [|reflexivity].
    now rewrite (H f eq_refl).
Qed.

(** X18.  The program's own code throws while it computes the fields of a
    redraw exactly when the old embed has two fields or more, the message
    has a stored snapshot, and the respawn time of the snapshot throws.
    The redraw of a message without a snapshot never throws there. *)
Theorem updatedFields_throws_iff (fs : list Field) (stored : option BossData)
    (data : Participation) (pu npu : list string) (now : Z) :
  updatedFields Date_toLocaleString fs stored data pu npu now = RangeError <->
  (2 <= length fs)%nat
  /\ exists b, stored = Some b /\ calculateRespawnTime b now = RangeError.
Proof.
  unfold updatedFields. cbv zeta.
  destruct (2 <=? length fs)%nat eqn:L.
  - apply Nat.leb_le in L. destruct stored as [b|].
    + destruct (timeValue Date_toLocaleString b now) as [text|] eqn:T.
      * split; [discriminate|]. intros (_ & b' & [= <-] & C).
        apply timeValue_throws in C. congruence.
      * split; [|reflexivity]. intros _. split; [exact L|].
        exists b. split; [reflexivity|]. now apply timeValue_throws.
    + split; [discriminate|]. intros (_ & b & [=] & _).
  - apply Nat.leb_gt in L. split; [discriminate|]. intros [H _]. lia.
Qed.

(** X19.  The redraw of the embed the route created for a boss (with the
    initial, empty participation data), for a message with the snapshot of
    this boss and no reaction yet, is the embed the route would create for
    the boss at the clock of the redraw: only the respawn time field and
    the timestamp follow the clock. *)
Theorem redraw_of_created_embed (boss : BossData) (image : Value) (now now' : Z)
    (e e' : Embed) (messageId : string) (fetchUser : string -> option string) (st : Store) :
  createBossEmbed Date_toLocaleString boss image (Some emptyParticipation) now = Returned e ->
  createBossEmbed Date_toLocaleString boss image (Some emptyParticipation) now'
  = Returned e' ->
  messageBossData st !! messageId = Some boss ->
  updateParticipationEmbed Date_toLocaleString messageId (Some e) emptyParticipation [] []
    fetchUser now' st = Some e'.
Proof.
  unfold createBossEmbed, updateParticipationEmbed. cbv zeta.
  destruct (timeValue Date_toLocaleString boss now) as [v|]; [|discriminate].
  destruct (timeValue Date_toLocaleString boss now') as [v'|] eqn:T'; [|discriminate].
  intros [= <-] [= <-] ->.
  cbn [fields title color description footer_text thumbnail_url displayNames map].
  unfold updatedFields. cbv zeta. cbn [length Nat.leb].
  rewrite T', !find_field_cons. names.
  cbn [copied field_name field_value field_inline app orb].
  do 2 f_equal.
  destruct (truthy image) eqn:I; [now rewrite I | reflexivity].
Qed.

End EmbedProperties.

End Bot.

(* ================================================================== *)
(** * Properties of the reaction handlers *)
(* ================================================================== *)

Lemma with_record_same (m : string) (data : Participation) (st : Store) :
  participationData st !! m = Some data -> with_record m data st = st.
Proof.
  intros H. destruct st as [pd mbd]. unfold with_record; simpl in *.
  now rewrite insert_id.
Qed.

Lemma unrecognised_emoji (e : string) :
  e <> emoji_yes -> e <> emoji_no ->
  negb (String.eqb e emoji_yes) && negb (String.eqb e emoji_no) = true.
Proof.
  intros H1 H2. apply String.eqb_neq in H1, H2. now rewrite H1, H2.
Qed.

(** Both handlers keep the sets of every record disjoint. *)
Lemma on_event_disjoint_at (e : Event) (m : string) (st : Store) :
  disjoint_at m st -> disjoint_at m (on_event e st).
Proof.
  intros Hinv data.
  destruct e as [m' em u [|]|m' em u [|]]; simpl; try apply Hinv.
  - unfold handleReactionAdd.
    destruct (negb (String.eqb em emoji_yes) && negb (String.eqb em emoji_no));
      [apply Hinv|]. simpl.
    destruct (decide (m' = m)) as [->|Hne].
    + rewrite lookup_insert_eq. intros [= <-].
      assert (Hd : disjoint_sets
                (match participationData st !! m with
                 | Some d => d
                 | None => emptyParticipation
                 end)).
      { destruct (participationData st !! m) eqn:E; [now apply Hinv|].
        unfold disjoint_sets, emptyParticipation; simpl. set_solver. }
      unfold disjoint_sets in *.
      destruct (String.eqb em emoji_yes); simpl; set_solver.
    + rewrite lookup_insert_ne by assumption. apply Hinv.
  - unfold handleReactionRemove.
    destruct (negb (String.eqb em emoji_yes) && negb (String.eqb em emoji_no));
      [apply Hinv|].
    destruct (participationData st !! m') as [d|] eqn:E; [|apply Hinv]. simpl.
    destruct (decide (m' = m)) as [->|Hne].
    + rewrite lookup_insert_eq. intros [= <-].
      specialize (Hinv d E). unfold disjoint_sets in *.
      destruct (String.eqb em emoji_yes); simpl; set_solver.
    + rewrite lookup_insert_ne by assumption. apply Hinv.
Qed.

(** Neither handler removes a record. *)
Lemma on_event_keeps_record (e : Event) (m : string) (st : Store) :
  is_Some (participationData st !! m) -> is_Some (participationData (on_event e st) !! m).
Proof.
  intros Hs.
  destruct e as [m' em u [|]|m' em u [|]]; simpl; try exact Hs.
  - unfold handleReactionAdd.
    destruct (negb (String.eqb em emoji_yes) && negb (String.eqb em emoji_no));
      [exact Hs|]. simpl.
    destruct (decide (m' = m)) as [->|Hne].
    + rewrite lookup_insert_eq. eauto.
    + now rewrite lookup_insert_ne.
  - unfold handleReactionRemove.
    destruct (negb (String.eqb em emoji_yes) && negb (String.eqb em emoji_no));
      [exact Hs|].
    destruct (participationData st !! m') as [d|] eqn:E; [|exact Hs]. simpl.
    destruct (decide (m' = m)) as [->|Hne].
    + rewrite lookup_insert_eq. eauto.
    + now rewrite lookup_insert_ne.
Qed.

Lemma trace_disjoint_at (evs : list Event) (m : string) (st : Store) :
  is_Some (participationData st !! m) ->
  disjoint_at m st ->
  Forall (fun s => is_Some (participationData s !! m) /\ disjoint_at m s) (trace evs st).
Proof.
  revert st. induction evs as [|e evs IH]; intros st Hs Hinv; simpl.
  - constructor; [split; assumption | constructor].
  - constructor; [split; assumption|].
    apply IH; [now apply on_event_keeps_record | now apply on_event_disjoint_at].
Qed.

(* ------------------------------------------------------------------ *)
(** ** The claims on the reaction handlers *)
(* ------------------------------------------------------------------ *)

(** C2.  On a message with participation data [data], the handlers follow
    the transition table: adding the positive emoji inserts the user into
    [participating] and removes it from [notParticipating]; removing it
    removes the user from [participating] and leaves [notParticipating];
    adding the negative emoji removes the user from [participating] and
    inserts it into [notParticipating]; removing it removes the user from
    [notParticipating] and leaves [participating].  In each of the four
    cases the new record is the one stored for the message afterwards and
    the one handed to the redraw, the record of every other message stays
    as it is, and so does [messageBossData].  Any other emoji leaves the
    state as it is.  Removing a reaction of a user who is not in the set
    leaves the state as it is; no path of a handler is an error. *)
Theorem reaction_transition_table (st : Store) (m u : string) (data : Participation) :
  participationData st !! m = Some data ->
  let p := participating data in
  let np := notParticipating data in
  let becomes (result : Store * Outcome) (d : Participation) :=
    result = (with_record m d st, Redraw d)
    /\ participationData (fst result) !! m = Some d
    /\ (forall k, k <> m ->
          participationData (fst result) !! k = participationData st !! k)
    /\ messageBossData (fst result) = messageBossData st in
  becomes (handleReactionAdd m emoji_yes u st) (mkParticipation ({[u]} ∪ p) (np ∖ {[u]}))
  /\ becomes (handleReactionRemove m emoji_yes u st) (mkParticipation (p ∖ {[u]}) np)
  /\ becomes (handleReactionAdd m emoji_no u st) (mkParticipation (p ∖ {[u]}) ({[u]} ∪ np))
  /\ becomes (handleReactionRemove m emoji_no u st) (mkParticipation p (np ∖ {[u]}))
  /\ (forall e, e <> emoji_yes -> e <> emoji_no ->
        handleReactionAdd m e u st = (st, Ignored)
        /\ handleReactionRemove m e u st = (st, Ignored))
  /\ (u ∉ p -> handleReactionRemove m emoji_yes u st = (st, Redraw data))
  /\ (u ∉ np -> handleReactionRemove m emoji_no u st = (st, Redraw data)).
Proof.
  intros H p np becomes.
  assert (B : forall result d, result = (with_record m d st, Redraw d) -> becomes result d).
  { intros result d ->. unfold becomes. cbn [fst]. split; [reflexivity|].
    unfold with_record. cbn [participationData messageBossData].
    split; [apply lookup_insert_eq|]. split; [|reflexivity].
    intros k Hk. now apply lookup_insert_ne. }
  assert (Hy : handleReactionRemove m emoji_yes u st
               = (with_record m (mkParticipation (p ∖ {[u]}) np) st,
                  Redraw (mkParticipation (p ∖ {[u]}) np)))
    by (unfold handleReactionRemove; simpl; rewrite H; reflexivity).
  assert (Hn : handleReactionRemove m emoji_no u st
               = (with_record m (mkParticipation p (np ∖ {[u]})) st,
                  Redraw (mkParticipation p (np ∖ {[u]}))))
    by (unfold handleReactionRemove; simpl; rewrite H; reflexivity).
  split; [|split; [|split; [|split; [|split; [|split]]]]].
  - apply B. unfold handleReactionAdd; simpl. rewrite H. reflexivity.
  - apply B. exact Hy.
  - apply B. unfold handleReactionAdd; simpl. rewrite H. reflexivity.
  - apply B. exact Hn.
  - intros e He1 He2. split.
    + unfold handleReactionAdd. now rewrite unrecognised_emoji.
    + unfold handleReactionRemove. now rewrite unrecognised_emoji.
  - intros Hu. rewrite Hy.
    assert (E : mkParticipation (p ∖ {[u]}) np = data).
    { destruct data as [p0 np0]. simpl in *. f_equal. set_solver. }
    rewrite E. now rewrite with_record_same.
  - intros Hu. rewrite Hn.
    assert (E : mkParticipation p (np ∖ {[u]}) = data).
    { destruct data as [p0 np0]. simpl in *. f_equal. set_solver. }
    rewrite E. now rewrite with_record_same.
Qed.

(** C3.  From a record with two empty sets and through any sequence of
    reaction events, additions and removals of any emoji by any user on any
    message, the notification has a record in every state gone through, and
    no user id is in both sets of that record. *)
Theorem participation_sets_stay_disjoint (st : Store) (m : string) (evs : list Event) :
  participationData st !! m = Some emptyParticipation ->
  Forall (fun s => exists data, participationData s !! m = Some data
                   /\ forall u, ~ (u ∈ participating data /\ u ∈ notParticipating data))
         (trace evs st).
Proof.
  intros H.
  assert (Hinv : disjoint_at m st).
  { intros data E. rewrite H in E. inversion E; subst.
    unfold disjoint_sets, emptyParticipation; simpl. set_solver. }
  assert (Hs : is_Some (participationData st !! m)) by (rewrite H; eauto).
  eapply Forall_impl; [apply (trace_disjoint_at evs m st Hs Hinv)|].
  intros s [[data E] Hd]. exists data. split; [exact E|].
  intros u [H1 H2]. specialize (Hd data E).
  unfold disjoint_sets in Hd. set_solver.
Qed.

(** C4, as the program has it.  On a message without participation data, a
    removal of a recognised emoji is dropped: the state is as before.  An
    addition of a recognised emoji creates the record of the message, with
    the user in the set of the emoji and the other set empty;
    [messageBossData] is as before. *)
Theorem reaction_on_untracked_message (st : Store) (m e u : string) :
  participationData st !! m = None ->
  e = emoji_yes \/ e = emoji_no ->
  handleReactionRemove m e u st = (st, NoData)
  /\ (exists data,
        handleReactionAdd m e u st = (with_record m data st, Redraw data)
        /\ participationData (with_record m data st) !! m = Some data
        /\ messageBossData (with_record m data st) = messageBossData st
        /\ data = if String.eqb e emoji_yes
                  then mkParticipation {[u]} ∅
                  else mkParticipation ∅ {[u]}).
Proof.
  intros H He. split.
  - unfold handleReactionRemove. destruct He as [-> | ->]; simpl; now rewrite H.
  - eexists. split; [|split; [|split; [|reflexivity]]].
    + unfold handleReactionAdd.
      destruct He as [-> | ->]; simpl; rewrite H; unfold with_record; simpl.
      * replace ({[u]} ∪ ∅ : gset string) with ({[u]} : gset string) by set_solver.
        replace (∅ ∖ {[u]} : gset string) with (∅ : gset string) by set_solver.
        reflexivity.
      * replace ({[u]} ∪ ∅ : gset string) with ({[u]} : gset string) by set_solver.
        replace (∅ ∖ {[u]} : gset string) with (∅ : gset string) by set_solver.
        reflexivity.
    + unfold with_record; simpl. apply lookup_insert_eq.
    + reflexivity.
Qed.

(* ================================================================== *)
(** * Properties of the statistics *)
(* ================================================================== *)










(* ------------------------------------------------------------------ *)
(** ** The claim on the statistics *)
(* ------------------------------------------------------------------ *)


(* ================================================================== *)
(** * The program run on the example data *)
(* ================================================================== *)

Example iso_parse_death : Host.iso_parse "2025-07-31T01:10:00Z" = Some death_instant.
Proof. vm_compute. reflexivity. Qed.

(** The scenario of a boss killed one hour ago that respawns after two. *)
Example griffin_countdown :
  formatRespawnTime Host.iso_parse Host.decimal_literal griffin (death_instant + 3600000)
  = Returned "1h 0m".
Proof. vm_compute. reflexivity. Qed.

(** C1.  The snapshot [{ monster: "Griffin", respawn_time: "TBD" }] has a
    respawn time that is present and does not parse, and no time of death.
    [calculateRespawnTime] returns an Invalid Date object for it, at any
    clock, where the policy says [null].  [formatRespawnTime] still answers
    ["Unknown"]; the route that posts a boss answers with status 500,
    because it calls [toISOString] on every result that is not [null]. *)
Theorem unparseable_respawn_time_is_returned (now : Z) (st : Store) :
  truthy (respawn_time unscheduled) = true
  /\ getTime (new_Date Host.iso_parse Host.decimal_literal (respawn_time unscheduled)) = NaN
  /\ calculateRespawnTime Host.iso_parse Host.decimal_literal unscheduled now
     = Returned (Some (mkDate NaN))
  /\ formatRespawnTime Host.iso_parse Host.decimal_literal unscheduled now
     = Returned "Unknown"
  /\ send_boss Host.iso_parse Host.decimal_literal
       true (Bool true) unscheduled Found (Some "M1") now st
     = (Failure 500, st).
Proof.
  assert (E : calculateRespawnTime Host.iso_parse Host.decimal_literal unscheduled now
              = Returned (Some (mkDate NaN))) by reflexivity.
  split; [reflexivity|]. split; [reflexivity|]. split; [exact E|].
  split.
  - unfold formatRespawnTime, formatRespawnTime_at. now rewrite E.
  - assert (E' : calculateRespawnTime Host.iso_parse Host.decimal_literal
                   (processedBossData unscheduled) now
                 = Returned (Some (mkDate NaN))) by reflexivity.
    unfold send_boss. now rewrite E'.
Qed.

(** A time of death plus hours beyond the valid times: the log line of
    the second branch throws, in the policy and in what calls it. *)
Example overlong_respawn_throws :
  calculateRespawnTime Host.iso_parse Host.decimal_literal overlong 0 = RangeError
  /\ formatRespawnTime Host.iso_parse Host.decimal_literal overlong 0 = RangeError
  /\ cleanOldMessages Host.iso_parse Host.decimal_literal 0 (register "M2" overlong emptyStore)
     = RangeError.
Proof.
  assert (E : calculateRespawnTime Host.iso_parse Host.decimal_literal overlong 0
              = RangeError) by (vm_compute; reflexivity).
  split; [exact E|]. split; [vm_compute; reflexivity|].
  apply (cleanOldMessages_throws Host.iso_parse Host.decimal_literal 0 _ "M2" overlong);
    [|exact E].
  simpl. apply lookup_insert_eq.
Qed.

(** Witness of C10: with 0 respawn hours a valid time of death gives no
    respawn instant; an empty respawn time leaves the time of death plus
    the hours. *)
Lemma falsy_timing_fields_witness :
  (truthy (respawn_hours instant_respawn) = false
   /\ calculateRespawnTime Host.iso_parse Host.decimal_literal instant_respawn 0
      = Returned None)
  /\ (truthy (respawn_time blank_respawn_time) = false
      /\ calculateRespawnTime Host.iso_parse Host.decimal_literal blank_respawn_time 0
         = calculateRespawnTime Host.iso_parse Host.decimal_literal griffin 0).
Proof.
  pose proof (falsy_timing_fields_are_absent Host.iso_parse Host.decimal_literal
                instant_respawn 0) as (_ & _ & H0 & _).
  pose proof (falsy_timing_fields_are_absent Host.iso_parse Host.decimal_literal
                blank_respawn_time 0) as (_ & _ & _ & H1).
  split; (split; [reflexivity|]).
  - destruct (H0 eq_refl) as (_ & _ & E). rewrite E. reflexivity.
  - destruct (H1 eq_refl) as (_ & E & _). rewrite E. reflexivity.
Defined.

(** Counterexample to C5 as stated.  The respawn time of [respawned] is the
    instant of its death.  A call that reads the clock one millisecond
    before that instant and again one millisecond after it answers
    ["Available Now!"]; a call one millisecond later, with both reads on the
    same instant, counts down to the time of death plus two hours. *)
Lemma available_now_is_followed_by_a_countdown :
  formatRespawnTime_at Host.iso_parse Host.decimal_literal respawned
    (death_instant - 1) (death_instant + 1) = Returned "Available Now!"
  /\ formatRespawnTime_at Host.iso_parse Host.decimal_literal respawned
       (death_instant + 2) (death_instant + 2) = Returned "1h 59m".
Proof. vm_compute. repeat split; reflexivity. Qed.

(** Witness of C5: the respawned boss is available two hours after its
    death, at a call whose reads are 5 milliseconds apart, and at a call
    one second later. *)
Lemma available_forever_witness :
  future_respawn_time Host.iso_parse Host.decimal_literal respawned griffin_respawn = false
  /\ formatRespawnTime_at Host.iso_parse Host.decimal_literal respawned
       griffin_respawn (griffin_respawn + 5) = Returned "Available Now!"
  /\ formatRespawnTime_at Host.iso_parse Host.decimal_literal respawned
       (griffin_respawn + 1000) (griffin_respawn + 1001) = Returned "Available Now!".
Proof.
  assert (F : future_respawn_time Host.iso_parse Host.decimal_literal respawned
                griffin_respawn = false) by (vm_compute; reflexivity).
  assert (H : formatRespawnTime_at Host.iso_parse Host.decimal_literal respawned
                griffin_respawn (griffin_respawn + 5) = Returned "Available Now!")
    by (vm_compute; reflexivity).
  split; [exact F|]. split; [exact H|].
  apply (formatRespawnTime_available_forever Host.iso_parse Host.decimal_literal
           respawned griffin_respawn (griffin_respawn + 5)
           (griffin_respawn + 1000) (griffin_respawn + 1001));
    [lia | lia | left; exact F | exact H].
Defined.



(** Witness of C2: the first reaction on the griffin's message. *)
Lemma reaction_transition_table_witness :
  participationData tracking_griffin !! "M1" = Some emptyParticipation
  /\ handleReactionAdd "M1" emoji_yes "U1" tracking_griffin
     = (with_record "M1" (mkParticipation ({["U1"]} ∪ ∅) (∅ ∖ {["U1"]})) tracking_griffin,
        Redraw (mkParticipation ({["U1"]} ∪ ∅) (∅ ∖ {["U1"]})))
  /\ participationData (fst (handleReactionAdd "M1" emoji_yes "U1" tracking_griffin)) !! "M1"
     = Some (mkParticipation ({["U1"]} ∪ ∅) (∅ ∖ {["U1"]}))
  /\ messageBossData (fst (handleReactionAdd "M1" emoji_yes "U1" tracking_griffin))
     = messageBossData tracking_griffin
  /\ handleReactionRemove "M1" emoji_no "U1" tracking_griffin
     = (tracking_griffin, Redraw emptyParticipation).
Proof.
  assert (H : participationData tracking_griffin !! "M1" = Some emptyParticipation)
    by (vm_compute; reflexivity).
  destruct (reaction_transition_table tracking_griffin "M1" "U1" emptyParticipation H)
    as ((A & L & _ & B) & _ & _ & _ & _ & _ & R).
  split; [exact H|]. split; [exact A|]. split; [exact L|]. split; [exact B|].
  apply R. simpl. set_solver.
Defined.

(** Witness of C3: a user reacts, changes their mind and withdraws. *)
Lemma participation_sets_stay_disjoint_witness :
  participationData tracking_griffin !! "M1" = Some emptyParticipation
  /\ Forall (fun s => exists data, participationData s !! "M1" = Some data
                      /\ forall u, ~ (u ∈ participating data /\ u ∈ notParticipating data))
       (trace [ReactionAdd "M1" emoji_yes "U1" false;
               ReactionAdd "M1" emoji_no "U1" false;
               ReactionRemove "M1" emoji_no "U1" false] tracking_griffin).
Proof.
  assert (H : participationData tracking_griffin !! "M1" = Some emptyParticipation)
    by (vm_compute; reflexivity).
  split; [exact H|].
  exact (participation_sets_stay_disjoint tracking_griffin "M1" _ H).
Defined.

(** Counterexample to C4 as stated: a positive reaction on a message the
    maps do not know creates its participation record. *)
Lemma reaction_add_creates_record :
  participationData emptyStore !! "M9" = None
  /\ messageBossData emptyStore !! "M9" = None
  /\ participationData (on_event (ReactionAdd "M9" emoji_yes "U1" false) emptyStore) !! "M9"
     = Some (mkParticipation ({["U1"]} ∪ ∅) (∅ ∖ {["U1"]}))
  /\ "U1" ∈ participating (mkParticipation ({["U1"]} ∪ ∅) (∅ ∖ {["U1"]})).
Proof.
  split; [reflexivity|]. split; [reflexivity|].
  split; [|simpl; set_solver].
  simpl. apply lookup_insert_eq.
Qed.

(** Witness of C4 on the same event and on the matching removal. *)
Lemma reaction_on_untracked_message_witness :
  participationData emptyStore !! "M9" = None
  /\ handleReactionRemove "M9" emoji_yes "U1" emptyStore = (emptyStore, NoData)
  /\ exists data,
       handleReactionAdd "M9" emoji_yes "U1" emptyStore
         = (with_record "M9" data emptyStore, Redraw data)
       /\ data = mkParticipation {["U1"]} ∅.
Proof.
  assert (H : participationData emptyStore !! "M9" = None) by reflexivity.
  destruct (reaction_on_untracked_message emptyStore "M9" emoji_yes "U1" H (or_introl eq_refl))
    as (R & data & A & _ & _ & D).
  split; [exact H|]. split; [exact R|].
  exists data. split; [exact A | exact D].
Defined.


(** Witness of C7: the route posted the drake as M1, while its respawn time
    was in the future, and then the griffin as M2.  25 hours after the
    respawn of the griffin the respawn time of the drake is past, its hours
    are no number, and the loop ends at M1 by the exception: the griffin,
    due for removal, stays in both maps. *)
Lemma uncaught_exception_ends_cleanup_witness :
  reachable Host.iso_parse Host.decimal_literal drake_then_griffin
  /\ calculateRespawnTime Host.iso_parse Host.decimal_literal (processedBossData drake)
       (griffin_respawn + 25 * 3600000) = RangeError
  /\ old Host.iso_parse Host.decimal_literal (processedBossData griffin)
       (griffin_respawn + 25 * 3600000) = true
  /\ (exists st',
        cleanOldEntries Host.iso_parse Host.decimal_literal (griffin_respawn + 25 * 3600000)
          drake_then_griffin_entries drake_then_griffin = Uncaught st'
        /\ messageBossData st' !! "M2" = Some (processedBossData griffin)
        /\ participationData st' !! "M2" = Some emptyParticipation)
  /\ periodicUpdate Host.iso_parse Host.decimal_literal true all_found
       (griffin_respawn + 25 * 3600000) drake_then_griffin = RangeError.
Proof.
  assert (R : reachable Host.iso_parse Host.decimal_literal drake_then_griffin).
  { apply (reach_act Host.iso_parse Host.decimal_literal
             (Post true (Bool true) griffin Found (Some "M2") death_instant)
             (register "M1" (processedBossData drake) emptyStore)).
    - apply (reach_act Host.iso_parse Host.decimal_literal
               (Post true (Bool true) drake Found (Some "M1") death_instant) emptyStore).
      + apply reach_start.
      + vm_compute. reflexivity.
    - vm_compute. reflexivity. }
  assert (T : calculateRespawnTime Host.iso_parse Host.decimal_literal (processedBossData drake)
                (griffin_respawn + 25 * 3600000) = RangeError) by (vm_compute; reflexivity).
  assert (K : messageBossData drake_then_griffin !! "M1" = Some (processedBossData drake))
    by (vm_compute; reflexivity).
  destruct (uncaught_exception_ends_cleanup Host.iso_parse Host.decimal_literal
              (griffin_respawn + 25 * 3600000) drake_then_griffin
              [] [("M2", processedBossData griffin)] "M1" (processedBossData drake) T)
    as [(st' & E & F) U].
  split; [exact R|]. split; [exact T|]. split; [vm_compute; reflexivity|]. split.
  - exists st'. split; [exact E|].
    destruct (F "M2") as [F1 F2]; [apply not_elem_of_nil|].
    split; [rewrite F2 | rewrite F1]; vm_compute; reflexivity.
  - apply (U all_found K). vm_compute. reflexivity.
Defined.


(** Counterexample to C9 as stated: the message id M1 is tracked, with user
    U1 participating; posting under the same id succeeds and leaves M1 with
    two empty sets. *)
Lemma register_of_tracked_id_succeeds :
  participationData griffin_with_U1 !! "M1"
    = Some (mkParticipation ({["U1"]} ∪ ∅) (∅ ∖ {["U1"]}))
  /\ messageBossData griffin_with_U1 !! "M1" = Some griffin
  /\ fst (send_boss Host.iso_parse Host.decimal_literal
            true (Bool true) griffin Found (Some "M1") death_instant griffin_with_U1)
     = Success "M1"
  /\ participationData
       (snd (send_boss Host.iso_parse Host.decimal_literal
               true (Bool true) griffin Found (Some "M1") death_instant griffin_with_U1))
       !! "M1"
     = Some emptyParticipation.
Proof.
  split; [simpl; apply lookup_insert_eq|].
  split; [simpl; apply lookup_insert_eq|].
  split; [vm_compute; reflexivity|].
  assert (E : send_boss Host.iso_parse Host.decimal_literal
                true (Bool true) griffin Found (Some "M1") death_instant griffin_with_U1
              = (Success "M1", register "M1" (processedBossData griffin) griffin_with_U1))
    by (vm_compute; reflexivity).
  rewrite E. simpl. apply lookup_insert_eq.
Qed.

(** Witness of C9 on the same state. *)
Lemma register_overwrites_witness :
  truthy (Bool true) = true
  /\ truthy (monster griffin) = true
  /\ send_boss Host.iso_parse Host.decimal_literal
       true (Bool true) griffin Found (Some "M1") death_instant griffin_with_U1
     = (Success "M1", register "M1" (processedBossData griffin) griffin_with_U1)
  /\ participationData (register "M1" (processedBossData griffin) griffin_with_U1) !! "M1"
     = Some emptyParticipation.
Proof.
  destruct (register_overwrites Host.iso_parse Host.decimal_literal
              griffin_with_U1 "M1" (processedBossData griffin)) as (P & _ & _ & S).
  split; [reflexivity|]. split; [reflexivity|].
  split; [|exact P].
  apply S; [reflexivity | reflexivity |].
  right. exists griffin_respawn. reflexivity.
Defined.

(* ================================================================== *)
(** * The rate at a tie *)
(* ================================================================== *)

(** 23 of 40 is 57.5 percent and 29 of 200 is 14.5 percent: the quotient is
    a double just below the fraction, the product stays below the half, and
    [Math.round] goes down.  1 of 8 is 12.5 percent: the doubles are exact
    and [Math.round] goes up.  The rate is nearest in each case, as the
    integer above or below it is. *)
Example rate_at_a_tie :
  participationRate (participationStats_of_counts 23 17) = 57
  /\ participationRate (participationStats_of_counts 29 171) = 14
  /\ participationRate (participationStats_of_counts 1 7) = 13
  /\ Binary64.nearest_percent 23 17 57 = true
  /\ Binary64.nearest_percent 23 17 58 = true.
Proof. vm_compute. repeat split; reflexivity. Qed.

(* ================================================================== *)
(** * Further runs *)
(* ================================================================== *)

(** A user reacts, changes their mind and withdraws: both sets are empty
    again and the rate is 0. *)
Example griffin_reactions :
  let s := run [ReactionAdd "M1" emoji_yes "U1" false;
                ReactionAdd "M1" emoji_no "U1" false;
                ReactionRemove "M1" emoji_no "U1" false] tracking_griffin in
  participationData s !! "M1" = Some emptyParticipation
  /\ (participationStats <$> participationData s !! "M1") = Some (mkStats 0 0 0 0).
Proof. vm_compute. split; reflexivity. Qed.

(** The text of the statistics field after the scenario of the rate. *)
Example griffin_quick_stats :
  quickStats (mkParticipation {["U2"]} {["U1"]})
  = "**Total Responses:** 2" +:+ newline +:+ "**Participation Rate:** 50%".
Proof. vm_compute. reflexivity. Qed.

(** The reaction of a bot is dropped by the listener. *)
Example bot_reaction_is_dropped :
  on_event (ReactionAdd "M1" emoji_yes "BOT" true) tracking_griffin = tracking_griffin.
Proof. reflexivity. Qed.

(** The first loop of the periodic update drops a message the transport
    cannot fetch, also before its respawn; with the message found the entry
    stays; a bot that is not connected does nothing. *)
Example unfetched_message_is_dropped :
  periodicUpdate Host.iso_parse Host.decimal_literal true none_found
    death_instant tracking_griffin = Returned emptyStore
  /\ periodicUpdate Host.iso_parse Host.decimal_literal true all_found
       death_instant tracking_griffin = Returned tracking_griffin
  /\ periodicUpdate Host.iso_parse Host.decimal_literal false all_found
       (griffin_respawn + 25 * 60 * 60 * 1000) tracking_griffin = Returned tracking_griffin.
Proof. vm_compute. repeat split; reflexivity. Qed.

(* ================================================================== *)
(** * More on the reaction handlers *)
(* ================================================================== *)

Lemma on_event_messageBossData (e : Event) (st : Store) :
  messageBossData (on_event e st) = messageBossData st.
Proof.
  destruct e as [m em u [|]|m em u [|]]; cbn [on_event]; try reflexivity.
  - unfold handleReactionAdd.
    now destruct (negb (String.eqb em emoji_yes) && negb (String.eqb em emoji_no)).
  - unfold handleReactionRemove.
    destruct (negb (String.eqb em emoji_yes) && negb (String.eqb em emoji_no));
      [reflexivity|].
    now destruct (participationData st !! m).
Qed.

Lemma on_event_other (e : Event) (st : Store) (k : string) :
  message_of e <> k ->
  participationData (on_event e st) !! k = participationData st !! k.
Proof.
  destruct e as [m em u [|]|m em u [|]]; cbn [on_event message_of]; intros Hk;
    try reflexivity.
  - unfold handleReactionAdd.
    destruct (negb (String.eqb em emoji_yes) && negb (String.eqb em emoji_no));
      [reflexivity|].
    cbn [fst with_record participationData]. now rewrite lookup_insert_ne.
  - unfold handleReactionRemove.
    destruct (negb (String.eqb em emoji_yes) && negb (String.eqb em emoji_no));
      [reflexivity|].
    destruct (participationData st !! m); [|reflexivity].
    cbn [fst with_record participationData]. now rewrite lookup_insert_ne.
Qed.

(** X20.  Reactions never touch the snapshots, and the events on other
    messages leave the record of a message as it is. *)
Theorem run_frame (evs : list Event) (st : Store) :
  messageBossData (run evs st) = messageBossData st
  /\ forall k, Forall (fun e => message_of e <> k) evs ->
               participationData (run evs st) !! k = participationData st !! k.
Proof.
  unfold run. revert st. induction evs as [|e evs IH]; intros st; [now split|].
  cbn [foldl]. destruct (IH (on_event e st)) as [IH1 IH2]. split.
  - now rewrite IH1, on_event_messageBossData.
  - intros k Hk. inversion Hk; subst. rewrite IH2 by assumption.
    now apply on_event_other.
Qed.

(** X21.  An event delivered twice in a row has the effect of the event
    delivered once. *)
Theorem on_event_idempotent (e : Event) (st : Store) :
  on_event e (on_event e st) = on_event e st.
Proof.
  destruct e as [m em u [|]|m em u [|]]; cbn [on_event]; try reflexivity.
  - unfold handleReactionAdd.
    destruct (negb (String.eqb em emoji_yes) && negb (String.eqb em emoji_no));
      [reflexivity|].
    cbn [fst with_record participationData messageBossData].
    rewrite lookup_insert_eq. unfold with_record.
    cbn [participationData messageBossData]. rewrite insert_insert_eq. do 2 f_equal.
    destruct (String.eqb em emoji_yes); cbn [participating notParticipating];
      f_equal; set_solver.
  - unfold handleReactionRemove.
    destruct (negb (String.eqb em emoji_yes) && negb (String.eqb em emoji_no));
      [reflexivity|].
    destruct (participationData st !! m) as [d|] eqn:E; cbn [fst].
    + cbn [with_record participationData messageBossData].
      rewrite lookup_insert_eq. cbn [fst]. unfold with_record.
      cbn [participationData messageBossData]. rewrite insert_insert_eq. do 2 f_equal.
      destruct (String.eqb em emoji_yes); cbn [participating notParticipating];
        f_equal; set_solver.
    + now rewrite E.
Qed.

(** X22.  A user who adds one of the two reactions and removes it again is in
    neither set afterwards, also when the user was in the other set before:
    the addition took the user out of it.  The other users stay where they
    were. *)
Theorem add_then_remove_clears (st : Store) (m em u : string) :
  em = emoji_yes \/ em = emoji_no ->
  let before := default emptyParticipation (participationData st !! m) in
  exists after,
    participationData
      (on_event (ReactionRemove m em u false) (on_event (ReactionAdd m em u false) st)) !! m
    = Some after
    /\ (u ∉ participating after)
    /\ (u ∉ notParticipating after)
    /\ forall u', u' <> u ->
         (u' ∈ participating after <-> u' ∈ participating before)
         /\ (u' ∈ notParticipating after <-> u' ∈ notParticipating before).
Proof.
  intros Hem before. cbn [on_event].
  assert (G : negb (String.eqb em emoji_yes) && negb (String.eqb em emoji_no) = false)
    by (destruct Hem as [-> | ->]; reflexivity).
  unfold handleReactionAdd. rewrite G.
  cbn [fst]. unfold handleReactionRemove. rewrite G.
  cbn [with_record participationData messageBossData].
  rewrite lookup_insert_eq. cbn [fst]. unfold with_record.
  cbn [participationData]. rewrite lookup_insert_eq.
  eexists. split; [reflexivity|].
  fold before.
  destruct (String.eqb em emoji_yes); cbn [participating notParticipating];
    (split; [set_solver|]; split; [set_solver|]; intros u' Hu; split; set_solver).
Qed.

(* ================================================================== *)
(** * More on the statistics *)
(* ================================================================== *)


(* ================================================================== *)
(** * The invariant of the program *)
(* ================================================================== *)

Lemma disjoint_sets_empty : disjoint_sets emptyParticipation.
Proof. unfold disjoint_sets, emptyParticipation. cbn. set_solver. Qed.

Lemma on_event_well_formed (e : Event) (st : Store) :
  well_formed st -> well_formed (on_event e st).
Proof.
  intros [H1 H2]. split.
  - intros k b. rewrite on_event_messageBossData. intros Hk.
    destruct (H1 k b Hk) as [Hs Hn]. split; [|exact Hn].
    now apply on_event_keeps_record.
  - intros k. apply on_event_disjoint_at. exact (H2 k).
Qed.

Lemma register_well_formed (m : string) (b : BossData) (st : Store) :
  named b -> well_formed st -> well_formed (register m b st).
Proof.
  intros Hb [H1 H2]. unfold register. split; cbn [participationData messageBossData].
  - intros k b'. destruct (decide (m = k)) as [->|Hne].
    + rewrite !lookup_insert_eq. intros [= <-]. split; [eauto | exact Hb].
    + rewrite !lookup_insert_ne by assumption. apply H1.
  - intros k d. destruct (decide (m = k)) as [->|Hne].
    + rewrite lookup_insert_eq. intros [= <-]. apply disjoint_sets_empty.
    + rewrite lookup_insert_ne by assumption. apply H2.
Qed.

Lemma evict_well_formed (k : string) (st : Store) :
  well_formed st -> well_formed (evict k st).
Proof.
  intros [H1 H2]. unfold evict. split; cbn [participationData messageBossData].
  - intros k' b. destruct (decide (k = k')) as [->|Hne].
    + now rewrite lookup_delete_eq.
    + rewrite !lookup_delete_ne by assumption. apply H1.
  - intros k' d. destruct (decide (k = k')) as [->|Hne].
    + now rewrite lookup_delete_eq.
    + rewrite lookup_delete_ne by assumption. apply H2.
Qed.

Lemma processedBossData_named (bossData : BossData) :
  truthy (monster bossData) = true -> named (processedBossData bossData).
Proof.
  intros Hm. unfold named, processedBossData, js_or. cbn [monster name].
  rewrite Hm. split; [exact Hm|]. now destruct (truthy (name bossData)) eqn:E.
Qed.

Section WholeProgram.

Variable Date_parse : string -> num.
Variable StringToNumber : string -> num.

#[local] Set Default Proof Using "Type".

Lemma send_boss_well_formed (connected : bool) (isAdmin : Value) (bossData : BossData)
    (channel : Fetched) (posted : option string) (now : Z) (st : Store) :
  well_formed st ->
  well_formed
    (snd (send_boss Date_parse StringToNumber connected isAdmin bossData channel posted now st)).
Proof.
  intros H. unfold send_boss.
  destruct connected; cbn [negb]; [|exact H].
  destruct (truthy isAdmin); cbn [negb]; [|exact H].
  destruct (truthy (monster bossData)) eqn:M; cbn [negb]; [|exact H].
  destruct channel; try exact H.
  match goal with |- context [if ?c then _ else _] => destruct c end; [exact H|].
  destruct posted as [id|]; [|exact H]. cbn [snd].
  apply register_well_formed; [now apply processedBossData_named | exact H].
Qed.

Lemma periodicUpdate_well_formed (connected : bool) (tr : Transport) (now : Z)
    (st st' : Store) :
  periodicUpdate Date_parse StringToNumber connected tr now st = Returned st' ->
  well_formed st -> well_formed st'.
Proof.
  intros E [H1 H2].
  pose proof (periodicUpdate_entry Date_parse StringToNumber connected tr now st st' E) as P.
  split.
  - intros k b Hk. destruct (P k) as [[P1 P2] | [_ P2]]; [|congruence].
    rewrite P1. apply H1. congruence.
  - intros k d Hk. destruct (P k) as [[P1 _] | [P1 _]]; [|congruence].
    apply (H2 k). congruence.
Qed.

Lemma reachable_invariant (st : Store) :
  reachable Date_parse StringToNumber st -> well_formed st.
Proof.
  induction 1 as [|a st st' _ IH E|k st _ IH].
  - split; intros k x; cbn; rewrite lookup_empty; discriminate.
  - destruct a as [e|connected isAdmin bossData channel posted now|connected tr now];
      cbn [act] in E.
    + inversion E; subst. now apply on_event_well_formed.
    + inversion E; subst. now apply send_boss_well_formed.
    + now apply (periodicUpdate_well_formed connected tr now st st').
  - now apply evict_well_formed.
Qed.

(** X24.  In every state the program reaches from two empty maps, by
    reactions, requests to post a boss and runs of the periodic update,
    every message with a snapshot has a participation record, every
    snapshot has a monster and a name, and no record has a user in both
    sets. *)
Theorem reachable_well_formed (st : Store) :
  reachable Date_parse StringToNumber st -> well_formed st.
Proof. apply reachable_invariant. Qed.

(** X25.  The first loop of the periodic update never skips a tracked
    message for want of participation data: in a reachable state it removes
    the message when the channel is there and the message is not, and
    leaves the state as it is otherwise. *)
Theorem tracked_message_is_never_skipped (st : Store) (tr : Transport) (k : string) :
  reachable Date_parse StringToNumber st ->
  is_Some (messageBossData st !! k) ->
  refreshEntry tr k st
  = if channel_found tr && negb (message_found tr k) then evict k st else st.
Proof.
  intros R [b Hb]. destruct (reachable_invariant st R) as [H1 _].
  destruct (H1 k b Hb) as [[d Hd] _].
  unfold refreshEntry. rewrite Hd.
  now destruct (channel_found tr), (message_found tr k).
Qed.

(** X26.  In a reachable state the total of the quick statistics of a
    message is the number of distinct users in its record. *)
Theorem total_counts_distinct_users (st : Store) (m : string) (data : Participation) :
  reachable Date_parse StringToNumber st ->
  participationData st !! m = Some data ->
  totalResponses (participationStats data)
  = Z.of_nat (size (participating data ∪ notParticipating data)).
Proof.
  intros R Hd. destruct (reachable_invariant st R) as [_ H2].
  specialize (H2 m data Hd). unfold disjoint_sets in H2.
  rewrite size_union by exact H2.
  unfold participationStats, participationStats_of_counts. cbn [totalResponses]. lia.
Qed.

End WholeProgram.

(* ================================================================== *)
(** * The further properties at concrete inputs *)
(* ================================================================== *)

Lemma posted_griffin_reachable :
  reachable Host.iso_parse Host.decimal_literal posted_griffin.
Proof.
  apply (reach_act Host.iso_parse Host.decimal_literal
           (Post true (Bool true) griffin Found (Some "M1") death_instant) emptyStore).
  - apply reach_start.
  - reflexivity.
Qed.

(** A run that does not find message M1 removes it; nothing is added. *)
Lemma periodicUpdate_only_removes_witness :
  periodicUpdate Host.iso_parse Host.decimal_literal true none_found death_instant
    griffin_with_U1 = Returned emptyStore
  /\ forall k,
       (forall b, messageBossData emptyStore !! k = Some b ->
                  messageBossData griffin_with_U1 !! k = Some b)
       /\ (forall d, participationData emptyStore !! k = Some d ->
                     participationData griffin_with_U1 !! k = Some d)
       /\ (is_Some (messageBossData griffin_with_U1 !! k) ->
           messageBossData emptyStore !! k = None ->
           participationData emptyStore !! k = None).
Proof.
  assert (E : periodicUpdate Host.iso_parse Host.decimal_literal true none_found
                death_instant griffin_with_U1 = Returned emptyStore)
    by (vm_compute; reflexivity).
  split; [exact E|].
  exact (periodicUpdate_only_removes Host.iso_parse Host.decimal_literal true none_found
           death_instant griffin_with_U1 emptyStore E).
Defined.

(** Twenty-three hours after its respawn the griffin stays; twenty-five
    hours after, the clean-up removes it, and a second clean-up finds
    nothing to do. *)
Lemma cleanOldMessages_idempotent_witness :
  cleanOldMessages Host.iso_parse Host.decimal_literal
    (griffin_respawn + 23 * 3600000) tracking_griffin = Returned tracking_griffin
  /\ cleanOldMessages Host.iso_parse Host.decimal_literal
       (griffin_respawn + 25 * 3600000) tracking_griffin = Returned emptyStore
  /\ cleanOldMessages Host.iso_parse Host.decimal_literal
       (griffin_respawn + 25 * 3600000) emptyStore = Returned emptyStore.
Proof.
  assert (E : cleanOldMessages Host.iso_parse Host.decimal_literal
                (griffin_respawn + 25 * 3600000) tracking_griffin = Returned emptyStore)
    by (vm_compute; reflexivity).
  split; [vm_compute; reflexivity|]. split; [exact E|].
  exact (cleanOldMessages_idempotent Host.iso_parse Host.decimal_literal _ _ _ E).
Defined.

(** The griffin is old 25 hours after its respawn, and 26 hours after. *)
Lemma old_stays_old_witness :
  old Host.iso_parse Host.decimal_literal griffin (griffin_respawn + 25 * 3600000) = true
  /\ old Host.iso_parse Host.decimal_literal griffin (griffin_respawn + 26 * 3600000) = true.
Proof.
  assert (O : old Host.iso_parse Host.decimal_literal griffin
                (griffin_respawn + 25 * 3600000) = true) by (vm_compute; reflexivity).
  split; [exact O|].
  apply (old_stays_old Host.iso_parse Host.decimal_literal griffin
           (griffin_respawn + 25 * 3600000) (griffin_respawn + 26 * 3600000));
    [unfold griffin_respawn, death_instant; lia
    |lia
    |unfold griffin_respawn, death_instant, maxTime; lia
    |exact O].
Defined.

Lemma refreshAll_unchanged_witness :
  refreshAll all_found griffin_with_U1 = griffin_with_U1.
Proof.
  apply refreshAll_unchanged. right. intros k. reflexivity.
Defined.

(** Two and a half hours. *)
Lemma countdown_ranges_witness :
  countdown 9000000 = "2h 30m"
  /\ exists a b,
      (countdown 9000000 = pretty a +:+ "d " +:+ pretty b +:+ "h" /\ 1 <= a /\ 0 <= b < 24)
      \/ (countdown 9000000 = pretty a +:+ "h " +:+ pretty b +:+ "m"
          /\ 1 <= a < 24 /\ 0 <= b < 60)
      \/ (countdown 9000000 = pretty a +:+ "m" /\ 1 <= a < 60)
      \/ (countdown 9000000 = pretty a +:+ "s" /\ 0 <= a < 60).
Proof.
  split; [vm_compute; reflexivity|].
  apply (countdown_ranges 9000000). lia.
Defined.

Lemma script_result_is_valid_witness :
  script_calculateRespawnTime Host.iso_parse Host.decimal_literal griffin
  = Returned (Some (mkDate (Some griffin_respawn)))
  /\ exists t, getTime (mkDate (Some griffin_respawn)) = Some t.
Proof.
  assert (E : script_calculateRespawnTime Host.iso_parse Host.decimal_literal griffin
              = Returned (Some (mkDate (Some griffin_respawn))))
    by (vm_compute; reflexivity).
  split; [exact E|].
  exact (script_result_is_valid Host.iso_parse Host.decimal_literal griffin _ E).
Defined.

(** The griffin has no respawn time: both policies add the hours to its
    time of death. *)
Lemma script_agrees_with_server_witness :
  truthy (respawn_time griffin) = false
  /\ script_calculateRespawnTime Host.iso_parse Host.decimal_literal griffin
     = calculateRespawnTime Host.iso_parse Host.decimal_literal griffin death_instant.
Proof.
  split; [reflexivity|].
  apply (script_agrees_with_server Host.iso_parse Host.decimal_literal griffin death_instant).
  left. reflexivity.
Defined.

(** Two hours before the respawn of the griffin both say 2h 0m. *)
Lemma script_countdown_agrees_witness :
  script_formatRespawnTime Host.iso_parse Host.decimal_literal griffin death_instant
  = Returned "2h 0m"
  /\ script_formatRespawnTime Host.iso_parse Host.decimal_literal griffin death_instant
     = formatRespawnTime Host.iso_parse Host.decimal_literal griffin death_instant.
Proof.
  split; [vm_compute; reflexivity|].
  apply (script_countdown_agrees Host.iso_parse Host.decimal_literal griffin death_instant
           griffin_respawn).
  - vm_compute; reflexivity.
  - vm_compute; reflexivity.
  - unfold griffin_respawn. lia.
Defined.

(** The redraw of [old_fields] puts the boss name first, drops the field it
    does not know and keeps the points. *)
Lemma updatedFields_layout_witness :
  exists fs',
    updatedFields Host.iso_parse Host.decimal_literal plain_date old_fields (Some griffin)
      emptyParticipation [] [] death_instant = Returned fs'
    /\ map field_name fs'
       = [boss_name_field; respawn_time_field; points_field; participation_field; stats_field]
    /\ exists kept,
         map field_name fs' = (kept ++ [participation_field; stats_field])%list
         /\ sublist kept [boss_name_field; respawn_time_field; points_field; notes_field]
         /\ ((2 <= length old_fields)%nat -> In respawn_time_field kept)
         /\ ((length old_fields < 2)%nat -> kept = []).
Proof.
  eexists. split; [reflexivity|]. split; [reflexivity|].
  apply (updatedFields_layout Host.iso_parse Host.decimal_literal plain_date old_fields
           (Some griffin) emptyParticipation [] [] death_instant).
  reflexivity.
Defined.

Lemma updatedFields_keeps_values_witness :
  exists fs',
    updatedFields Host.iso_parse Host.decimal_literal plain_date old_fields (Some griffin)
      emptyParticipation [] [] death_instant = Returned fs'
    /\ find_field points_field old_fields = Some (mkField points_field (Str "50") true)
    /\ find_field points_field fs'
       = (fun f => mkField points_field (field_value f) (field_inline f))
           <$> find_field points_field old_fields.
Proof.
  eexists. split; [reflexivity|]. split; [reflexivity|].
  apply (updatedFields_keeps_values Host.iso_parse Host.decimal_literal plain_date old_fields
           (Some griffin) emptyParticipation [] [] death_instant).
  - cbn. lia.
  - reflexivity.
  - right. left. reflexivity.
Defined.

Lemma updatedFields_stable_witness :
  exists fs',
    updatedFields Host.iso_parse Host.decimal_literal plain_date old_fields (Some griffin)
      emptyParticipation [] [] death_instant = Returned fs'
    /\ fs' <> old_fields
    /\ updatedFields Host.iso_parse Host.decimal_literal plain_date fs' (Some griffin)
         emptyParticipation [] [] death_instant = Returned fs'.
Proof.
  eexists. split; [reflexivity|]. split; [discriminate|].
  apply (updatedFields_stable Host.iso_parse Host.decimal_literal plain_date old_fields
           (Some griffin) emptyParticipation [] [] death_instant).
  - cbn. lia.
  - reflexivity.
Defined.

(** An embed with the boss name only loses it. *)
Lemma short_embed_redraw_witness :
  exists fs1,
    updatedFields Host.iso_parse Host.decimal_literal plain_date lone_field (Some griffin)
      emptyParticipation [] [] death_instant = Returned fs1
    /\ map field_name fs1 = [participation_field; stats_field]
    /\ forall fs2,
         updatedFields Host.iso_parse Host.decimal_literal plain_date fs1 (Some griffin)
           emptyParticipation [] [] death_instant = Returned fs2 ->
         map field_name fs2 = [respawn_time_field; participation_field; stats_field].
Proof.
  apply (short_embed_redraw Host.iso_parse Host.decimal_literal plain_date lone_field
           (Some griffin) emptyParticipation [] [] death_instant).
  cbn. lia.
Defined.

(** With the snapshot of the griffin the old text 2h 0m is replaced by what
    the snapshot gives at the clock, here one hour later. *)
Lemma updatedFields_respawn_time_witness :
  exists fs',
    updatedFields Host.iso_parse Host.decimal_literal plain_date old_fields (Some griffin)
      emptyParticipation [] [] (death_instant + 3600000) = Returned fs'
    /\ timeValue Host.iso_parse Host.decimal_literal plain_date griffin
         (death_instant + 3600000)
       = Returned ("1h 0m" +:+ newline +:+ "t=1753931400000")
    /\ exists v,
         find_field respawn_time_field fs' = Some (mkField respawn_time_field v true)
         /\ (forall b, Some griffin = Some b ->
               exists text,
                 timeValue Host.iso_parse Host.decimal_literal plain_date b
                   (death_instant + 3600000) = Returned text
                 /\ v = Str text)
         /\ (Some griffin = None ->
               truthy v = true
               /\ forall f, find_field respawn_time_field old_fields = Some f ->
                            truthy (field_value f) = true -> v = field_value f)
         /\ (Some griffin = None ->
               (forall f, find_field respawn_time_field old_fields = Some f ->
                          truthy (field_value f) = false) ->
               v = Str "Unknown").
Proof.
  eexists. split; [reflexivity|]. split; [vm_compute; reflexivity|].
  apply (updatedFields_respawn_time Host.iso_parse Host.decimal_literal plain_date old_fields
           (Some griffin) emptyParticipation [] [] (death_instant + 3600000)).
  - cbn. lia.
  - reflexivity.
Defined.

(** The embed of the griffin, created at its death and redrawn one hour
    later. *)
Lemma redraw_of_created_embed_witness :
  exists e e',
    createBossEmbed Host.iso_parse Host.decimal_literal plain_date griffin Undefined
      (Some emptyParticipation) death_instant = Returned e
    /\ createBossEmbed Host.iso_parse Host.decimal_literal plain_date griffin Undefined
         (Some emptyParticipation) (death_instant + 3600000) = Returned e'
    /\ messageBossData tracking_griffin !! "M1" = Some griffin
    /\ updateParticipationEmbed Host.iso_parse Host.decimal_literal plain_date "M1" (Some e)
         emptyParticipation [] [] (fun _ => None) (death_instant + 3600000) tracking_griffin
       = Some e'.
Proof.
  eexists. eexists.
  split; [reflexivity|]. split; [reflexivity|].
  assert (K : messageBossData tracking_griffin !! "M1" = Some griffin)
    by (vm_compute; reflexivity).
  split; [exact K|].
  apply (redraw_of_created_embed Host.iso_parse Host.decimal_literal plain_date griffin
           Undefined death_instant (death_instant + 3600000)).
  - reflexivity.
  - reflexivity.
  - exact K.
Defined.

(** User U1 reacts with the positive emoji on M1 and takes it back. *)
Lemma add_then_remove_clears_witness :
  exists after,
    participationData
      (on_event (ReactionRemove "M1" emoji_yes "U1" false)
         (on_event (ReactionAdd "M1" emoji_yes "U1" false) tracking_griffin)) !! "M1"
    = Some after
    /\ ("U1" ∉ participating after)
    /\ ("U1" ∉ notParticipating after)
    /\ forall u', u' <> "U1" ->
         (u' ∈ participating after
          <-> u' ∈ participating
                (default emptyParticipation (participationData tracking_griffin !! "M1")))
         /\ (u' ∈ notParticipating after
             <-> u' ∈ notParticipating
                   (default emptyParticipation (participationData tracking_griffin !! "M1"))).
Proof.
  apply (add_then_remove_clears tracking_griffin "M1" emoji_yes "U1").
  left. reflexivity.
Defined.


Lemma reachable_well_formed_witness :
  reachable Host.iso_parse Host.decimal_literal posted_griffin
  /\ well_formed posted_griffin.
Proof.
  split; [exact posted_griffin_reachable|].
  exact (reachable_well_formed Host.iso_parse Host.decimal_literal posted_griffin
           posted_griffin_reachable).
Defined.

Lemma tracked_message_is_never_skipped_witness :
  is_Some (messageBossData posted_griffin !! "M1")
  /\ refreshEntry none_found "M1" posted_griffin
     = if channel_found none_found && negb (message_found none_found "M1")
       then evict "M1" posted_griffin
       else posted_griffin.
Proof.
  assert (K : is_Some (messageBossData posted_griffin !! "M1"))
    by (vm_compute; eauto).
  split; [exact K|].
  exact (tracked_message_is_never_skipped Host.iso_parse Host.decimal_literal posted_griffin
           none_found "M1" posted_griffin_reachable K).
Defined.

Lemma total_counts_distinct_users_witness :
  reachable Host.iso_parse Host.decimal_literal (on_event U1_says_yes posted_griffin)
  /\ participationData (on_event U1_says_yes posted_griffin) !! "M1"
     = Some (mkParticipation {["U1"]} ∅)
  /\ totalResponses (participationStats (mkParticipation {["U1"]} ∅))
     = Z.of_nat (size (participating (mkParticipation {["U1"]} ∅)
                       ∪ notParticipating (mkParticipation {["U1"]} ∅))).
Proof.
  assert (R : reachable Host.iso_parse Host.decimal_literal
                (on_event U1_says_yes posted_griffin)).
  { apply (reach_act Host.iso_parse Host.decimal_literal (React U1_says_yes) posted_griffin).
    - exact posted_griffin_reachable.
    - reflexivity. }
  assert (K : participationData (on_event U1_says_yes posted_griffin) !! "M1"
              = Some (mkParticipation {["U1"]} ∅)) by (vm_compute; reflexivity).
  split; [exact R|]. split; [exact K|].
  exact (total_counts_distinct_users Host.iso_parse Host.decimal_literal _ "M1" _ R K).
Defined.
